(** * GenAIMCP: the chat client, its tool bridge and the tool server

    A shallow embedding of [client.py] (the tool bridge
    [get_openai_compatible_tools] and the conversation loop of [main]) and
    of [mcpserver/my_server.py] (the [multiply] tool).

    Python strings are [string]s (the bytes of their UTF-8 encoding),
    Python [int]s are unbounded and become [Z], the list [chat_history] is
    a [list Message] that grows at its end.  The three libraries the client
    talks to (the chat-completion endpoint, the FastMCP connection and
    [json]) are not part of the repository: they are the fields of the
    class [Externals], and every run threads an explicit state of the
    outside world through them.  [print] calls are left out: they neither
    read nor change the history. *)

From Stdlib Require Import ZArith List String Ascii Bool Arith Lia DecimalString.
Import ListNotations.
Local Open Scope string_scope.
Local Open Scope list_scope.

(** ** Exceptions *)

(** The two classes of exception the handlers of [main] tell apart:
    [json.JSONDecodeError], and every other [Exception].  The text carried
    is [str(e)]. *)
Inductive exn : Type :=
| JSONDecodeError (msg : string)
| Exception (msg : string).

Definition exn_str (e : exn) : string :=
  match e with
  | JSONDecodeError msg => msg
  | Exception msg => msg
  end.

(** ** Data model *)

(** [tool_call.function]: the tool's name and its serialized arguments. *)
Record FunctionCall : Type := {
  fn_name : string;
  fn_arguments : string
}.

(** One entry of [assistant_message.tool_calls]. *)
Record ToolCall : Type := {
  tc_id : string;
  tc_function : FunctionCall
}.

(** [response.choices[0].message]: the message object of a completion.
    [tool_calls] is [None] or a list; both [None] and the empty list are
    falsy for [if assistant_message.tool_calls]. *)
Record ChatCompletionMessage : Type := {
  content : option string;
  tool_calls : option (list ToolCall)
}.

(** The entries of [chat_history]: the literal dictionaries the loop
    builds, and the message objects it appends as they came. *)
Inductive Message : Type :=
| RoleContent (role : string) (text : string)
| ToolResult (tool_call_id : string) (role : string) (name : string) (text : string)
| Completion (m : ChatCompletionMessage).

Section Data.
Variables Schema Json : Type.

(** A tool as [mcp_client.list_tools()] describes it. *)
Record Tool : Type := {
  tool_name : string;
  tool_description : option string;
  tool_inputSchema : Schema
}.

(** The value under ["function"] of a [ChatCompletionToolParam]. *)
Record FunctionDefinition : Type := {
  name : string;
  description : option string;
  parameters : Schema
}.

(** A [ChatCompletionToolParam] dictionary. *)
Record ChatCompletionToolParam : Type := {
  type : string;
  function : FunctionDefinition
}.

(** What a run does to the outside world and to the history, in the order
    it does it. *)
Inductive Event : Type :=
| EvListTools
| EvCreate (model : string) (messages : list Message)
    (tools : option (list ChatCompletionToolParam)) (tool_choice : option string)
| EvCallTool (name : string) (arguments : Json)
| EvAppend (m : Message)
| EvPop (m : Message).

End Data.

Arguments tool_name {Schema} _.
Arguments tool_description {Schema} _.
Arguments tool_inputSchema {Schema} _.
Arguments Build_FunctionDefinition {Schema} _ _ _.
Arguments name {Schema} _.
Arguments description {Schema} _.
Arguments parameters {Schema} _.
Arguments Build_ChatCompletionToolParam {Schema} _ _.
Arguments type {Schema} _.
Arguments function {Schema} _.
Arguments EvListTools {Schema Json}.
Arguments EvCreate {Schema Json} _ _ _ _.
Arguments EvCallTool {Schema Json} _ _.
Arguments EvAppend {Schema Json} _.
Arguments EvPop {Schema Json} _.

(** ** The libraries the client calls *)

(** [World] is the state of everything outside the process (the model
    endpoint, the tool server).  A call either raises ([inl]) or returns
    ([inr]), and leaves a new world behind. *)
Class Externals : Type := {
  Schema : Type;
  Json : Type;
  ToolOutput : Type;
  World : Type;
  (** [json.loads]: [None] is a [JSONDecodeError]. *)
  json_loads : string -> option Json;
  (** [str(tool_output)]. *)
  str : ToolOutput -> string;
  (** [mcp_client.list_tools()]. *)
  list_tools : World -> World * (exn + list (Tool Schema));
  (** [openai_client.chat.completions.create(model, messages, tools,
      tool_choice)], followed by [.choices[0].message]: a response is
      taken to carry a first choice, as the API has it. *)
  chat_completions_create :
    World -> string -> list Message ->
    option (list (ChatCompletionToolParam Schema)) -> option string ->
    World * (exn + ChatCompletionMessage);
  (** [mcp_client.call_tool(name, arguments)]. *)
  call_tool : World -> string -> Json -> World * (exn + ToolOutput)
}.

(** ** Configuration *)

Definition LLM_MODEL : string := "qwen3:4b".

(** ** [list.pop()] *)

(** The list without its last element, and that element; [None] on the
    empty list, where Python raises [IndexError]. *)
Fixpoint unsnoc {A : Type} (l : list A) : option (list A * A) :=
  match l with
  | [] => None
  | x :: r =>
      match unsnoc r with
      | None => Some ([], x)
      | Some (r', y) => Some (x :: r', y)
      end
  end.

(** ** [str.lower()] *)

(** Only the letters A..Z change; a byte of a non-ASCII character is
    kept.  Python's [lower] also rewrites non-ASCII characters, but none
    of them to one of the letters e, x, i, t alone, so the outcome of the
    comparison with ['exit'] is the same. *)
Definition lower_ascii (c : ascii) : ascii :=
  let n := nat_of_ascii c in
  if (65 <=? n)%nat && (n <=? 90)%nat then ascii_of_nat (n + 32) else c.

Fixpoint lower (s : string) : string :=
  match s with
  | EmptyString => EmptyString
  | String c r => String (lower_ascii c) (lower r)
  end.

(** ** Outcomes *)

(** A call returns a value or raises. *)
Inductive result (A : Type) : Type :=
| Ok (a : A)
| Raise (e : exn).
Arguments Ok {A} _.
Arguments Raise {A} _.

(** How an iteration of [while True] ends: [break], or on to the next
    [input]. *)
Inductive flow : Type :=
| Break
| Next.

Section Client.
Context {E : Externals}.

Local Notation "'ToolParam'" := (ChatCompletionToolParam Schema).
Local Notation "'Ev'" := (Event Schema Json).

(** ** State and the monad of the client *)

Record State : Type := {
  chat_history : list Message;
  world : World;
  events : list Ev
}.

Definition M (A : Type) : Type := State -> result A * State.

Definition ret {A : Type} (a : A) : M A := fun s => (Ok a, s).

Definition bind {A B : Type} (c : M A) (k : A -> M B) : M B :=
  fun s =>
    match c s with
    | (Ok a, s') => k a s'
    | (Raise e, s') => (Raise e, s')
    end.

Definition raise {A : Type} (e : exn) : M A := fun s => (Raise e, s).

(** [try: body  except ... as e: handler e]; what [body] did to the state
    before it raised stays done. *)
Definition try_except {A : Type} (body : M A) (handler : exn -> M A) : M A :=
  fun s =>
    match body s with
    | (Ok a, s') => (Ok a, s')
    | (Raise e, s') => handler e s'
    end.

Notation "x <- c ;; k" := (bind c (fun x => k))
  (at level 61, c at next level, right associativity).
Notation "c ;; k" := (bind c (fun _ => k))
  (at level 61, right associativity).

(** [for x in l: body x] *)
Fixpoint for_each {A : Type} (l : list A) (body : A -> M unit) : M unit :=
  match l with
  | [] => ret tt
  | x :: r => body x ;; for_each r body
  end.

(** [chat_history.append(m)] *)
Definition append (m : Message) : M unit :=
  fun s =>
    (Ok tt, {| chat_history := chat_history s ++ [m];
               world := world s;
               events := events s ++ [EvAppend m] |}).

(** [chat_history.pop()] *)
Definition pop : M Message :=
  fun s =>
    match unsnoc (chat_history s) with
    | None => (Raise (Exception "pop from empty list"), s)
    | Some (h, m) =>
        (Ok m, {| chat_history := h;
                  world := world s;
                  events := events s ++ [EvPop m] |})
    end.

(** [json.loads(s)] *)
Definition loads (s : string) : M Json :=
  match json_loads s with
  | Some v => ret v
  | None => raise (JSONDecodeError "Expecting value")
  end.

(** [openai_client.chat.completions.create(model=LLM_MODEL,
    messages=chat_history, ...)] *)
Definition create (tools : option (list ToolParam)) (tool_choice : option string)
  : M ChatCompletionMessage :=
  fun s =>
    let (w, r) := chat_completions_create (world s) LLM_MODEL (chat_history s)
                    tools tool_choice in
    let s' := {| chat_history := chat_history s;
                 world := w;
                 events := events s ++ [EvCreate LLM_MODEL (chat_history s) tools tool_choice] |} in
    match r with
    | inl e => (Raise e, s')
    | inr m => (Ok m, s')
    end.

(** [await mcp_client.call_tool(tool_name, tool_args)] *)
Definition mcp_call_tool (tool_name : string) (tool_args : Json) : M ToolOutput :=
  fun s =>
    let (w, r) := call_tool (world s) tool_name tool_args in
    let s' := {| chat_history := chat_history s;
                 world := w;
                 events := events s ++ [EvCallTool tool_name tool_args] |} in
    match r with
    | inl e => (Raise e, s')
    | inr out => (Ok out, s')
    end.

(** [await mcp_client.list_tools()] *)
Definition mcp_list_tools : M (list (Tool Schema)) :=
  fun s =>
    let (w, r) := list_tools (world s) in
    let s' := {| chat_history := chat_history s;
                 world := w;
                 events := events s ++ [EvListTools] |} in
    match r with
    | inl e => (Raise e, s')
    | inr l => (Ok l, s')
    end.

(** ** The tool bridge *)

(** The dictionary built for one tool in the body of the [for] loop. *)
Definition openai_tool (tool : Tool Schema) : ToolParam :=
  {| type := "function";
     function := {| name := tool_name tool;
                    description := tool_description tool;
                    parameters := tool_inputSchema tool |} |}.

(** The [for tool in fastmcp_tools] loop, appending to [openai_tools]. *)
Definition convert_tools (fastmcp_tools : list (Tool Schema)) : list ToolParam :=
  fold_left (fun openai_tools tool => openai_tools ++ [openai_tool tool])
            fastmcp_tools [].

Definition get_openai_compatible_tools : M (list ToolParam) :=
  fastmcp_tools <- mcp_list_tools ;;
  ret (convert_tools fastmcp_tools).

(** ** The conversation loop *)

Definition parse_error_message : Message :=
  RoleContent "assistant" "I encountered an error processing the tool arguments.".

Definition tool_error_message (e : exn) : Message :=
  RoleContent "assistant"
    ("I encountered an error while trying to use a tool: " ++ exn_str e)%string.

(** The dictionary appended for a tool's answer. *)
Definition tool_result (tool_call : ToolCall) (tool_output : ToolOutput) : Message :=
  ToolResult (tc_id tool_call) "tool" (fn_name (tc_function tool_call))
             (str tool_output).

(** The body of [for tool_call in assistant_message.tool_calls], lines
    95-136: the [try] block and its two handlers. *)
Definition handle_tool_call (assistant_message : ChatCompletionMessage)
  (tool_call : ToolCall) : M unit :=
  let tool_name := fn_name (tc_function tool_call) in
  let tool_args_str := fn_arguments (tc_function tool_call) in
  try_except
    (tool_args <- loads tool_args_str ;;
     tool_output <- mcp_call_tool tool_name tool_args ;;
     append (Completion assistant_message) ;;
     append (tool_result tool_call tool_output) ;;
     final_response <- create None None ;;
     append (Completion final_response))
    (fun e =>
       match e with
       | JSONDecodeError _ =>
           pop ;; append parse_error_message
       | Exception _ =>
           pop ;; append (tool_error_message e)
       end).

(** [available_openai_tools if available_openai_tools else None] *)
Definition tools_or_none (available_openai_tools : list ToolParam)
  : option (list ToolParam) :=
  match available_openai_tools with
  | [] => None
  | _ :: _ => Some available_openai_tools
  end.

(** One iteration of the [while True] loop, lines 70-140, on the line
    that [input] returned. *)
Definition loop_body (available_openai_tools : list ToolParam)
  (user_message : string) : M flow :=
  if String.eqb (lower user_message) "exit" then ret Break
  else
    append (RoleContent "user" user_message) ;;
    response <-
      try_except
        (r <- create (tools_or_none available_openai_tools) (Some "auto") ;;
         ret (Some r))
        (fun _ => pop ;; ret None) ;;
    match response with
    | None => ret Next
    | Some assistant_message =>
        match tool_calls assistant_message with
        | Some (tool_call :: more) =>
            for_each (tool_call :: more) (handle_tool_call assistant_message) ;;
            ret Next
        | _ =>
            append (Completion assistant_message) ;;
            ret Next
        end
    end.

(** The [while True] loop over the lines typed; when they run out,
    [input] raises [EOFError]. *)
Fixpoint chat_loop (available_openai_tools : list ToolParam)
  (lines : list string) : M unit :=
  match lines with
  | [] => raise (Exception "EOF when reading a line")
  | user_message :: rest =>
      f <- loop_body available_openai_tools user_message ;;
      match f with
      | Break => ret tt
      | Next => chat_loop available_openai_tools rest
      end
  end.

(** [main]: tool discovery, then the loop, inside the outer
    [try ... except Exception]; opening the connection with
    [async with mcp_client] is taken to succeed. *)
Definition main (lines : list string) : M unit :=
  try_except
    (available_openai_tools <- get_openai_compatible_tools ;;
     chat_loop available_openai_tools lines)
    (fun _ => ret tt).

(** The state [main] starts from: [chat_history = []]. *)
Definition initial (w : World) : State :=
  {| chat_history := []; world := w; events := [] |}.

(** ** Reading a run *)

(** The message the handlers of the [for] body append for the exception
    they caught. *)
Definition recovery_message (e : exn) : Message :=
  match e with
  | JSONDecodeError _ => parse_error_message
  | Exception _ => tool_error_message e
  end.

(** A message object that asks for tools: its [tool_calls] is truthy. *)
Definition is_tool_call_message (m : Message) : bool :=
  match m with
  | Completion c =>
      match tool_calls c with
      | Some (_ :: _) => true
      | _ => false
      end
  | _ => false
  end.

(** A tool-result dictionary. *)
Definition is_tool_result (m : Message) : bool :=
  match m with
  | ToolResult _ _ _ _ => true
  | _ => false
  end.

(** The [tools] argument of every model call of a log, in order. *)
Fixpoint model_calls (log : list Ev) : list (option (list ToolParam)) :=
  match log with
  | [] => []
  | EvCreate _ _ tools _ :: r => tools :: model_calls r
  | _ :: r => model_calls r
  end.

(** The entries a log pops off the history, in order. *)
Fixpoint pops (log : list Ev) : list Message :=
  match log with
  | [] => []
  | EvPop m :: r => m :: pops r
  | _ :: r => pops r
  end.

(** The tool names of the RPC invocations of a log, in order. *)
Fixpoint rpc_calls (log : list Ev) : list string :=
  match log with
  | [] => []
  | EvCallTool n _ :: r => n :: rpc_calls r
  | _ :: r => rpc_calls r
  end.

(** How often a log appends a message that asks for tools. *)
Fixpoint count_tool_call_appends (log : list Ev) : nat :=
  match log with
  | [] => 0
  | EvAppend m :: r =>
      (if is_tool_call_message m then 1 else 0) + count_tool_call_appends r
  | _ :: r => count_tool_call_appends r
  end.

(** Whether a log invokes a tool before it first appends a message that
    asks for tools. *)
Fixpoint dispatched_before_append (log : list Ev) : bool :=
  match log with
  | [] => false
  | EvCallTool _ _ :: _ => true
  | EvAppend m :: r =>
      if is_tool_call_message m then false else dispatched_before_append r
  | _ :: r => dispatched_before_append r
  end.

(** The state in which the model's first answer of a turn arrives: the
    user Message is in, the model was asked once, and the world is [w1]. *)
Definition asked (tools : list ToolParam) (line : string)
  (s : State) (w1 : World) : State :=
  {| chat_history := chat_history s ++ [RoleContent "user" line];
     world := w1;
     events := events s
       ++ [EvAppend (RoleContent "user" line);
           EvCreate LLM_MODEL (chat_history s ++ [RoleContent "user" line])
             (tools_or_none tools) (Some "auto")] |}.

(** ** A batch in which nothing fails *)

(** What one pending call brought: the request, the tool's answer and the
    model's follow-up answer. *)
Definition Served : Type := (ToolCall * ToolOutput * ChatCompletionMessage)%type.

Definition request (r : Served) : ToolCall := fst (fst r).
Definition output (r : Served) : ToolOutput := snd (fst r).
Definition follow_up (r : Served) : ChatCompletionMessage := snd r.

(** The history entries of one served call. *)
Definition entries (assistant_message : ChatCompletionMessage) (r : Served)
  : list Message :=
  [Completion assistant_message; tool_result (request r) (output r);
   Completion (follow_up r)].

(** [all_succeed am s rs s']: starting in [s], the outside world lets the
    argument parse, the RPC invocation and the follow-up model call of each
    request of [rs] succeed, in this order, with the answers [rs] records,
    and leaves the state [s']. *)
Inductive all_succeed (assistant_message : ChatCompletionMessage)
  : State -> list Served -> State -> Prop :=
| all_succeed_nil s : all_succeed assistant_message s [] s
| all_succeed_cons s tool_call tool_args w1 tool_output w2 final rs s' :
    json_loads (fn_arguments (tc_function tool_call)) = Some tool_args ->
    call_tool (world s) (fn_name (tc_function tool_call)) tool_args
      = (w1, inr tool_output) ->
    chat_completions_create w1 LLM_MODEL
      (chat_history s
         ++ [Completion assistant_message; tool_result tool_call tool_output])
      None None
      = (w2, inr final) ->
    all_succeed assistant_message
      {| chat_history :=
           chat_history s ++ entries assistant_message (tool_call, tool_output, final);
         world := w2;
         events :=
           events s
             ++ [EvCallTool (fn_name (tc_function tool_call)) tool_args;
                 EvAppend (Completion assistant_message);
                 EvAppend (tool_result tool_call tool_output);
                 EvCreate LLM_MODEL
                   (chat_history s
                      ++ [Completion assistant_message;
                          tool_result tool_call tool_output])
                   None None;
                 EvAppend (Completion final)] |}
      rs s' ->
    all_succeed assistant_message s ((tool_call, tool_output, final) :: rs) s'.

(** ** The ways through the body of the [for] loop *)

(** [handled am tc s s']: the body run for [tc] in [s] ends in [s']; one
    constructor for each way through the [try] block and its handlers. *)
Inductive handled (assistant_message : ChatCompletionMessage) (tool_call : ToolCall)
  (s : State) : State -> Prop :=
| handled_parse_failure h m :
    json_loads (fn_arguments (tc_function tool_call)) = None ->
    chat_history s = h ++ [m] ->
    handled assistant_message tool_call s
      {| chat_history := h ++ [parse_error_message];
         world := world s;
         events := events s ++ [EvPop m; EvAppend parse_error_message] |}
| handled_rpc_failure h m tool_args w1 e :
    json_loads (fn_arguments (tc_function tool_call)) = Some tool_args ->
    call_tool (world s) (fn_name (tc_function tool_call)) tool_args = (w1, inl e) ->
    chat_history s = h ++ [m] ->
    handled assistant_message tool_call s
      {| chat_history := h ++ [recovery_message e];
         world := w1;
         events := events s
           ++ [EvCallTool (fn_name (tc_function tool_call)) tool_args;
               EvPop m; EvAppend (recovery_message e)] |}
| handled_follow_up_failure tool_args w1 tool_output w2 e :
    json_loads (fn_arguments (tc_function tool_call)) = Some tool_args ->
    call_tool (world s) (fn_name (tc_function tool_call)) tool_args
      = (w1, inr tool_output) ->
    chat_completions_create w1 LLM_MODEL
      (chat_history s
         ++ [Completion assistant_message; tool_result tool_call tool_output])
      None None
      = (w2, inl e) ->
    handled assistant_message tool_call s
      {| chat_history :=
           chat_history s ++ [Completion assistant_message; recovery_message e];
         world := w2;
         events := events s
           ++ [EvCallTool (fn_name (tc_function tool_call)) tool_args;
               EvAppend (Completion assistant_message);
               EvAppend (tool_result tool_call tool_output);
               EvCreate LLM_MODEL
                 (chat_history s
                    ++ [Completion assistant_message;
                        tool_result tool_call tool_output])
                 None None;
               EvPop (tool_result tool_call tool_output);
               EvAppend (recovery_message e)] |}
| handled_success tool_args w1 tool_output w2 final :
    json_loads (fn_arguments (tc_function tool_call)) = Some tool_args ->
    call_tool (world s) (fn_name (tc_function tool_call)) tool_args
      = (w1, inr tool_output) ->
    chat_completions_create w1 LLM_MODEL
      (chat_history s
         ++ [Completion assistant_message; tool_result tool_call tool_output])
      None None
      = (w2, inr final) ->
    handled assistant_message tool_call s
      {| chat_history :=
           chat_history s
             ++ entries assistant_message (tool_call, tool_output, final);
         world := w2;
         events := events s
           ++ [EvCallTool (fn_name (tc_function tool_call)) tool_args;
               EvAppend (Completion assistant_message);
               EvAppend (tool_result tool_call tool_output);
               EvCreate LLM_MODEL
                 (chat_history s
                    ++ [Completion assistant_message;
                        tool_result tool_call tool_output])
                 None None;
               EvAppend (Completion final)] |}.

(** ** More readings of a run *)

(** An entry written by the assistant's side: a message object that the
    endpoint returned (the API gives those the role ["assistant"]), or a
    dictionary whose role is ["assistant"]. *)
Definition is_assistant (m : Message) : bool :=
  match m with
  | RoleContent role _ => String.eqb role "assistant"
  | ToolResult _ _ _ _ => false
  | Completion _ => true
  end.

(** A history as the loop leaves it between two turns: empty, or ending
    in an entry of the assistant. *)
Definition settled (h : list Message) : Prop :=
  h = [] \/ exists p m, h = p ++ [m] /\ is_assistant m = true.

(** Whether [json.loads] accepts the argument payload of a call. *)
Definition parses (tool_call : ToolCall) : bool :=
  match json_loads (fn_arguments (tc_function tool_call)) with
  | Some _ => true
  | None => false
  end.

(** The pending calls of a model answer: none when [tool_calls] is
    [None]. *)
Definition pending (assistant_message : ChatCompletionMessage) : list ToolCall :=
  match tool_calls assistant_message with
  | Some l => l
  | None => []
  end.

(** How often a log lists the tools of the server. *)
Fixpoint discoveries (log : list Ev) : nat :=
  match log with
  | [] => 0
  | EvListTools :: r => S (discoveries r)
  | _ :: r => discoveries r
  end.

End Client.

(** ** An exact case-insensitive match of ["exit"] *)

(** Four characters, each the letter of ["exit"] at its place, in either
    case. *)
Definition matches_exit (line : string) : Prop :=
  exists c1 c2 c3 c4 : ascii,
    line = String c1 (String c2 (String c3 (String c4 EmptyString)))
    /\ (c1 = "e"%char \/ c1 = "E"%char)
    /\ (c2 = "x"%char \/ c2 = "X"%char)
    /\ (c3 = "i"%char \/ c3 = "I"%char)
    /\ (c4 = "t"%char \/ c4 = "T"%char).

(** ** The tool server, [mcpserver/my_server.py] *)

(** [def multiply(a: int, b: int) -> int: return a*b] *)
Definition multiply (a b : Z) : Z := a * b.

(** The keyword arguments of a call: a decoded JSON object whose members
    are integers. *)
Definition kwargs : Type := list (string * Z).

Fixpoint get_arg (k : string) (args : kwargs) : option Z :=
  match args with
  | [] => None
  | (k', v) :: r => if String.eqb k k' then Some v else get_arg k r
  end.

(** Modelled from the spec: the FastMCP server loop and the RPC channel
    between [mcp_client] and [my_server.py] are library code outside the
    repository.  Section 6 gives the boundary as
    [call_tool(name, args) -> return_value | error] over the tools the
    server registered, here [multiply] alone; the value handed back is
    the tool's integer. *)
Definition registry_call_tool (name : string) (args : kwargs) : exn + Z :=
  if String.eqb name "multiply" then
    match get_arg "a" args, get_arg "b" args with
    | Some a, Some b => inr (multiply a b)
    | _, _ => inl (Exception "Error calling tool 'multiply'")
    end
  else inl (Exception ("Unknown tool: " ++ name)%string).

(** [str] of a Python [int]: its decimal numeral. *)
Definition str_int (z : Z) : string := NilZero.string_of_int (Z.to_int z).

(** What [list_tools] reports for the registered tool: a parameter schema
    is given as the list of its properties with their JSON types. *)
Definition registered_tools : list (Tool (list (string * string))) :=
  [ {| tool_name := "multiply";
       tool_description := None;
       tool_inputSchema := [("a", "integer"); ("b", "integer")] |} ].

(** The double quote. *)
Definition dq : string := String (ascii_of_nat 34) EmptyString.

(** The argument payload [{"a": 6, "b": 7}] of the scenario. *)
Definition payload_6_7 : string :=
  ("{" ++ dq ++ "a" ++ dq ++ ": 6, " ++ dq ++ "b" ++ dq ++ ": 7}")%string.

(** The client wired to this server: the world [W], the JSON decoder and
    the model endpoint stay open. *)
Definition served (W : Type) (decode : string -> option kwargs)
  (llm : W -> string -> list Message ->
         option (list (ChatCompletionToolParam (list (string * string)))) ->
         option string -> W * (exn + ChatCompletionMessage))
  : Externals :=
  {| Schema := list (string * string);
     Json := kwargs;
     ToolOutput := Z;
     World := W;
     json_loads := decode;
     str := str_int;
     list_tools := fun w => (w, inr registered_tools);
     chat_completions_create := llm;
     call_tool := fun w n args => (w, registry_call_tool n args) |}.

(** ** A scripted outside world *)

Module Scripted.

(** A payload that is not JSON: [{"a": 6,]. *)
Definition payload_cut : string := ("{" ++ dq ++ "a" ++ dq ++ ": 6,")%string.

(** [json.loads] on the payloads the scripts use. *)
Definition decode (s : string) : option kwargs :=
  if String.eqb s payload_6_7 then Some [("a", 6%Z); ("b", 7%Z)] else None.

(** The endpoint answers from a script, one entry per call; it refuses
    the connection once the script is used up. *)
Definition Script : Type := list (exn + ChatCompletionMessage).

Definition llm (w : Script) (model : string) (messages : list Message)
  (tools : option (list (ChatCompletionToolParam (list (string * string)))))
  (tool_choice : option string) : Script * (exn + ChatCompletionMessage) :=
  match w with
  | [] => ([], inl (Exception "Connection error."))
  | r :: w' => (w', r)
  end.

Definition externals : Externals := served Script decode llm.

Definition call_ok (id : string) : ToolCall :=
  {| tc_id := id;
     tc_function := {| fn_name := "multiply"; fn_arguments := payload_6_7 |} |}.

Definition call_malformed (id : string) : ToolCall :=
  {| tc_id := id;
     tc_function := {| fn_name := "multiply"; fn_arguments := payload_cut |} |}.

(** A model answer that asks for the tool calls [l]. *)
Definition asks (l : list ToolCall) : ChatCompletionMessage :=
  {| content := None; tool_calls := Some l |}.

(** A model answer in plain text. *)
Definition says (text : string) : ChatCompletionMessage :=
  {| content := Some text; tool_calls := None |}.

Definition question : string := "What is 6 times 7?".

(** The descriptors of the registered tools. *)
Definition tools : list (ChatCompletionToolParam (list (string * string))) :=
  convert_tools (E := externals) registered_tools.

(** The state after a run of one turn on [question], from an empty
    history, against the script [w]. *)
Definition turn (w : Script) : State (E := externals) :=
  snd (loop_body (E := externals) tools question (initial (E := externals) w)).

(** Model answers of the scripts. *)
Definition summary : ChatCompletionMessage := says "6 times 7 is 42.".
Definition summary_again : ChatCompletionMessage := says "Again, 42.".

(** The model asks for a good call and then a malformed one. *)
Definition ok_then_malformed : Script :=
  [inr (asks [call_ok "call_1"; call_malformed "call_2"]); inr summary].

(** The model asks for a malformed call and then a good one. *)
Definition malformed_then_ok : Script :=
  [inr (asks [call_malformed "call_1"; call_ok "call_2"]); inr summary].

(** The model asks for two good calls. *)
Definition two_ok : Script :=
  [inr (asks [call_ok "call_1"; call_ok "call_2"]); inr summary; inr summary_again].

(** What the two calls of [two_ok] bring. *)
Definition two_served : list (Served (E := externals)) :=
  [(call_ok "call_1", 42%Z, summary); (call_ok "call_2", 42%Z, summary_again)].

(** The model asks for one good call. *)
Definition one_ok : Script := [inr (asks [call_ok "call_1"]); inr summary].

(** The model answers in plain text. *)
Definition plain : Script := [inr summary].

(** The endpoint cannot be reached. *)
Definition refused : Script := [].

(** A call of a tool the server does not have. *)
Definition call_unknown (id : string) : ToolCall :=
  {| tc_id := id;
     tc_function := {| fn_name := "divide"; fn_arguments := payload_6_7 |} |}.

(** The model asks for a tool the server does not have. *)
Definition unknown_tool : Script := [inr (asks [call_unknown "call_1"])].

(** The model asks for one good call; the endpoint is gone when the
    summary is asked for. *)
Definition no_summary : Script := [inr (asks [call_ok "call_1"])].

(** The scripted world with a tool listing that answers [r]. *)
Definition listing (r : exn + list (Tool (list (string * string)))) : Externals :=
  {| Schema := list (string * string);
     Json := kwargs;
     ToolOutput := Z;
     World := Script;
     json_loads := decode;
     str := str_int;
     list_tools := fun w => (w, r);
     chat_completions_create := llm;
     call_tool := fun w n args => (w, registry_call_tool n args) |}.

(** The model asks for three calls, each with a malformed payload. *)
Definition all_malformed : Script :=
  [inr (asks [call_malformed "call_1"; call_malformed "call_2";
              call_malformed "call_3"])].

End Scripted.

(** * Facts *)

(** ** Lists and strings *)

Lemma unsnoc_snoc {A : Type} (l : list A) (x : A) : unsnoc (l ++ [x]) = Some (l, x).
Proof.
  induction l as [|y l IH]; simpl.
  - reflexivity.
  - rewrite IH. reflexivity.
Qed.

Lemma unsnoc_nonempty {A : Type} (l : list A) :
  l <> [] -> exists h m, l = h ++ [m].
Proof.
  intros Hl. destruct (exists_last Hl) as [h [m Heq]]. eauto.
Qed.

Lemma snoc_nonempty {A : Type} (l : list A) (x : A) : l ++ [x] <> [].
Proof. destruct l; discriminate. Qed.

Ltac all_bytes c :=
  destruct c as [[] [] [] [] [] [] [] []]; vm_compute;
  (split; [ intros H; try discriminate H; auto
          | intros [H | H]; try discriminate H; reflexivity ]).

Lemma lower_ascii_e (c : ascii) :
  lower_ascii c = "e"%char <-> c = "e"%char \/ c = "E"%char.
Proof. all_bytes c. Qed.

Lemma lower_ascii_x (c : ascii) :
  lower_ascii c = "x"%char <-> c = "x"%char \/ c = "X"%char.
Proof. all_bytes c. Qed.

Lemma lower_ascii_i (c : ascii) :
  lower_ascii c = "i"%char <-> c = "i"%char \/ c = "I"%char.
Proof. all_bytes c. Qed.

Lemma lower_ascii_t (c : ascii) :
  lower_ascii c = "t"%char <-> c = "t"%char \/ c = "T"%char.
Proof. all_bytes c. Qed.

(** [user_message.lower() == 'exit'] holds exactly on the sixteen
    spellings of the word. *)
Lemma lower_exit (line : string) : lower line = "exit" <-> matches_exit line.
Proof.
  split.
  - intros H.
    destruct line as [|c1 [|c2 [|c3 [|c4 [|c5 r]]]]]; simpl in H; try discriminate H.
    injection H as H1 H2 H3 H4.
    exists c1, c2, c3, c4. split; [reflexivity|].
    rewrite <- lower_ascii_e, <- lower_ascii_x, <- lower_ascii_i, <- lower_ascii_t.
    auto.
  - intros (c1 & c2 & c3 & c4 & -> & H1 & H2 & H3 & H4). simpl.
    apply lower_ascii_e in H1. apply lower_ascii_x in H2.
    apply lower_ascii_i in H3. apply lower_ascii_t in H4.
    rewrite H1, H2, H3, H4. reflexivity.
Qed.

Lemma exit_test (line : string) :
  String.eqb (lower line) "exit" = true <-> matches_exit line.
Proof. rewrite String.eqb_eq. apply lower_exit. Qed.

Lemma exit_test_false (line : string) :
  ~ matches_exit line -> String.eqb (lower line) "exit" = false.
Proof.
  intros H. destruct (String.eqb (lower line) "exit") eqn:Heq; [|reflexivity].
  apply exit_test in Heq. contradiction.
Qed.

Section ClientFacts.
Context {E : Externals}.

(** ** The tool bridge *)

Lemma fold_append_map (l : list (Tool Schema))
  (acc : list (ChatCompletionToolParam Schema)) :
  fold_left (fun openai_tools tool => openai_tools ++ [openai_tool tool]) l acc
  = acc ++ map openai_tool l.
Proof.
  revert acc. induction l as [|t l IH]; intros acc; simpl.
  - rewrite app_nil_r. reflexivity.
  - rewrite IH, <- app_assoc. reflexivity.
Qed.

Lemma convert_tools_map (l : list (Tool Schema)) :
  convert_tools l = map openai_tool l.
Proof. unfold convert_tools. rewrite fold_append_map. reflexivity. Qed.

(** ** The paths through the body of the [for] loop *)

Ltac run :=
  cbv [handle_tool_call loop_body try_except bind ret raise loads
       mcp_call_tool create append pop mcp_list_tools
       get_openai_compatible_tools]; cbn [chat_history world events].

Ltac tidy := repeat rewrite <- app_assoc; cbn [app].

(** The argument payload does not parse. *)
Lemma handle_parse_failure am tc s h m :
  json_loads (fn_arguments (tc_function tc)) = None ->
  chat_history s = h ++ [m] ->
  handle_tool_call am tc s
  = (Ok tt, {| chat_history := h ++ [parse_error_message];
               world := world s;
               events := events s ++ [EvPop m; EvAppend parse_error_message] |}).
Proof.
  intros Hparse Hh. run. rewrite Hparse. run.
  rewrite Hh, unsnoc_snoc. cbn [chat_history world events]. tidy. reflexivity.
Qed.

(** The payload parses and the RPC invocation raises. *)
Lemma handle_rpc_failure am tc s h m args w1 e :
  json_loads (fn_arguments (tc_function tc)) = Some args ->
  call_tool (world s) (fn_name (tc_function tc)) args = (w1, inl e) ->
  chat_history s = h ++ [m] ->
  handle_tool_call am tc s
  = (Ok tt, {| chat_history := h ++ [recovery_message e];
               world := w1;
               events := events s
                 ++ [EvCallTool (fn_name (tc_function tc)) args;
                     EvPop m; EvAppend (recovery_message e)] |}).
Proof.
  intros Hparse Hcall Hh. run. rewrite Hparse. run. rewrite Hcall.
  destruct e; cbn [chat_history world events];
    rewrite Hh, unsnoc_snoc; cbn [chat_history world events]; tidy; reflexivity.
Qed.

(** Parse and RPC succeed, the follow-up model call raises: the entry the
    handler pops is the tool result just appended. *)
Lemma handle_follow_up_failure am tc s args w1 out w2 e :
  json_loads (fn_arguments (tc_function tc)) = Some args ->
  call_tool (world s) (fn_name (tc_function tc)) args = (w1, inr out) ->
  chat_completions_create w1 LLM_MODEL
    (chat_history s ++ [Completion am; tool_result tc out]) None None
    = (w2, inl e) ->
  handle_tool_call am tc s
  = (Ok tt, {| chat_history := chat_history s ++ [Completion am; recovery_message e];
               world := w2;
               events := events s
                 ++ [EvCallTool (fn_name (tc_function tc)) args;
                     EvAppend (Completion am);
                     EvAppend (tool_result tc out);
                     EvCreate LLM_MODEL
                       (chat_history s ++ [Completion am; tool_result tc out])
                       None None;
                     EvPop (tool_result tc out);
                     EvAppend (recovery_message e)] |}).
Proof.
  intros Hparse Hcall Hllm. run. rewrite Hparse. run. rewrite Hcall.
  cbn [chat_history world events].
  replace ((chat_history s ++ [Completion am]) ++ [tool_result tc out])
    with (chat_history s ++ [Completion am; tool_result tc out])
    by (tidy; reflexivity).
  rewrite Hllm.
  replace (chat_history s ++ [Completion am; tool_result tc out])
    with ((chat_history s ++ [Completion am]) ++ [tool_result tc out])
    by (tidy; reflexivity).
  destruct e; cbn [chat_history world events];
    rewrite unsnoc_snoc; cbn [chat_history world events]; tidy; reflexivity.
Qed.

(** Parse, RPC and follow-up model call all succeed. *)
Lemma handle_success am tc s args w1 out w2 final :
  json_loads (fn_arguments (tc_function tc)) = Some args ->
  call_tool (world s) (fn_name (tc_function tc)) args = (w1, inr out) ->
  chat_completions_create w1 LLM_MODEL
    (chat_history s ++ [Completion am; tool_result tc out]) None None
    = (w2, inr final) ->
  handle_tool_call am tc s
  = (Ok tt, {| chat_history := chat_history s ++ entries am (tc, out, final);
               world := w2;
               events := events s
                 ++ [EvCallTool (fn_name (tc_function tc)) args;
                     EvAppend (Completion am);
                     EvAppend (tool_result tc out);
                     EvCreate LLM_MODEL
                       (chat_history s ++ [Completion am; tool_result tc out])
                       None None;
                     EvAppend (Completion final)] |}).
Proof.
  intros Hparse Hcall Hllm. run. rewrite Hparse. run. rewrite Hcall.
  cbn [chat_history world events].
  replace ((chat_history s ++ [Completion am]) ++ [tool_result tc out])
    with (chat_history s ++ [Completion am; tool_result tc out])
    by (tidy; reflexivity).
  rewrite Hllm. cbn [chat_history world events].
  unfold entries, request, output, follow_up. cbn [fst snd]. tidy. reflexivity.
Qed.

(** On a history that is not empty the body never raises, leaves a
    history that is not empty, and only adds to the log. *)
Lemma handle_total am tc s :
  chat_history s <> [] ->
  exists s' tail,
    handle_tool_call am tc s = (Ok tt, s')
    /\ chat_history s' <> []
    /\ events s' = events s ++ tail.
Proof.
  intros Hne. destruct (unsnoc_nonempty _ Hne) as (h & m & Hh).
  destruct (json_loads (fn_arguments (tc_function tc))) as [args|] eqn:Hparse.
  - destruct (call_tool (world s) (fn_name (tc_function tc)) args)
      as [w1 [e|out]] eqn:Hcall.
    + rewrite (handle_rpc_failure am tc s h m args w1 e Hparse Hcall Hh).
      eexists _, _. split; [reflexivity|]. split; [apply snoc_nonempty|reflexivity].
    + destruct (chat_completions_create w1 LLM_MODEL
                  (chat_history s ++ [Completion am; tool_result tc out]) None None)
        as [w2 [e|final]] eqn:Hllm.
      * rewrite (handle_follow_up_failure am tc s args w1 out w2 e Hparse Hcall Hllm).
        eexists _, _. split; [reflexivity|]. cbn [chat_history events].
        split; [|reflexivity]. rewrite Hh. tidy. destruct h; discriminate.
      * rewrite (handle_success am tc s args w1 out w2 final Hparse Hcall Hllm).
        eexists _, _. split; [reflexivity|]. cbn [chat_history events].
        split; [|reflexivity]. rewrite Hh. tidy. destruct h; discriminate.
  - rewrite (handle_parse_failure am tc s h m Hparse Hh).
    eexists _, _. split; [reflexivity|]. split; [apply snoc_nonempty|reflexivity].
Qed.

Lemma for_each_cons {A : Type} (x : A) (l : list A) (body : A -> M unit) s s1 :
  body x s = (Ok tt, s1) ->
  for_each (x :: l) body s = for_each l body s1.
Proof. intros H. cbn [for_each]. unfold bind. rewrite H. reflexivity. Qed.

Lemma for_each_total am l s :
  chat_history s <> [] ->
  exists s' tail,
    for_each l (handle_tool_call am) s = (Ok tt, s')
    /\ chat_history s' <> []
    /\ events s' = events s ++ tail.
Proof.
  revert s. induction l as [|tc l IH]; intros s Hne.
  - exists s, []. cbn. rewrite app_nil_r. auto.
  - destruct (handle_total am tc s Hne) as (s1 & t1 & H1 & Hne1 & Hev1).
    destruct (IH s1 Hne1) as (s' & t2 & H2 & Hne2 & Hev2).
    exists s', (t1 ++ t2). rewrite (for_each_cons _ _ _ _ _ H1).
    split; [exact H2|]. split; [exact Hne2|].
    rewrite Hev2, Hev1, app_assoc. reflexivity.
Qed.

(** The readings of a log go through [++]. *)
Lemma model_calls_app (l l' : list (Event Schema Json)) :
  model_calls (l ++ l') = model_calls l ++ model_calls l'.
Proof. induction l as [|[] l IHl]; cbn; rewrite ?IHl; reflexivity. Qed.

Lemma rpc_calls_app (l l' : list (Event Schema Json)) :
  rpc_calls (l ++ l') = rpc_calls l ++ rpc_calls l'.
Proof. induction l as [|[] l IHl]; cbn; rewrite ?IHl; reflexivity. Qed.

Lemma pops_app (l l' : list (Event Schema Json)) :
  pops (l ++ l') = pops l ++ pops l'.
Proof. induction l as [|[] l IHl]; cbn; rewrite ?IHl; reflexivity. Qed.

Lemma count_tool_call_appends_app (l l' : list (Event Schema Json)) :
  count_tool_call_appends (l ++ l')
  = count_tool_call_appends l + count_tool_call_appends l'.
Proof.
  induction l as [|[] l IHl]; cbn; rewrite ?IHl; try reflexivity.
  apply Nat.add_assoc.
Qed.

(** A batch in which nothing fails runs to the state [all_succeed]
    names, and appends the entries of its calls, in order. *)
Lemma for_each_all_succeed am s rs s' :
  all_succeed am s rs s' ->
  for_each (map request rs) (handle_tool_call am) s = (Ok tt, s')
  /\ chat_history s' = chat_history s ++ flat_map (entries am) rs
  /\ model_calls (events s') = model_calls (events s) ++ repeat None (List.length rs)
  /\ rpc_calls (events s')
     = rpc_calls (events s) ++ map (fun r => fn_name (tc_function (request r))) rs.
Proof.
  induction 1 as [s|s tc args w1 out w2 final rs s' Hparse Hcall Hllm Hrest IH].
  - cbn. rewrite !app_nil_r. auto.
  - destruct IH as (Hrun & Hhist & Hmodel & Hrpc).
    cbn [map request fst].
    rewrite (for_each_cons _ _ _ _ _ (handle_success am tc s args w1 out w2 final
                                        Hparse Hcall Hllm)).
    split; [exact Hrun|].
    split; [rewrite Hhist; cbn [chat_history flat_map]; rewrite app_assoc; reflexivity|].
    split.
    + rewrite Hmodel. cbn [events List.length repeat].
      rewrite model_calls_app. cbn. rewrite <- app_assoc. reflexivity.
    + rewrite Hrpc. cbn [events map request fst].
      rewrite rpc_calls_app. cbn. rewrite <- app_assoc. reflexivity.
Qed.

(** ** One iteration of the loop *)

(** A response that carries tool calls sends the loop into the [for]
    loop with nothing appended but the user Message. *)
Lemma loop_body_dispatch tools line s w1 am tc more :
  ~ matches_exit line ->
  chat_completions_create (world s) LLM_MODEL
    (chat_history s ++ [RoleContent "user" line]) (tools_or_none tools) (Some "auto")
    = (w1, inr am) ->
  tool_calls am = Some (tc :: more) ->
  loop_body tools line s
  = bind (for_each (tc :: more) (handle_tool_call am)) (fun _ => ret Next)
      (asked tools line s w1).
Proof.
  intros Hline Hllm Htc. unfold loop_body. rewrite (exit_test_false _ Hline).
  cbv [try_except bind ret create append]. cbn [chat_history world events].
  rewrite Hllm, Htc. unfold asked. tidy. reflexivity.
Qed.

Lemma loop_body_exit tools line s :
  matches_exit line -> loop_body tools line s = (Ok Break, s).
Proof.
  intros H. unfold loop_body. apply exit_test in H. rewrite H. reflexivity.
Qed.

(** A line that is not ["exit"] never breaks and never raises; the user
    Message is appended and the model asked, first of all. *)
Lemma loop_body_next tools line s :
  ~ matches_exit line ->
  exists s' tail,
    loop_body tools line s = (Ok Next, s')
    /\ events s'
       = events s
           ++ EvAppend (RoleContent "user" line)
           :: EvCreate LLM_MODEL (chat_history s ++ [RoleContent "user" line])
                (tools_or_none tools) (Some "auto")
           :: tail.
Proof.
  intros Hline.
  destruct (chat_completions_create (world s) LLM_MODEL
              (chat_history s ++ [RoleContent "user" line])
              (tools_or_none tools) (Some "auto")) as [w1 [e|am]] eqn:Hllm.
  - unfold loop_body. rewrite (exit_test_false _ Hline).
    cbv [try_except bind ret create append pop]. cbn [chat_history world events].
    rewrite Hllm. cbn [chat_history world events]. rewrite unsnoc_snoc.
    eexists _, _. split; [reflexivity|]. cbn [events]. tidy. reflexivity.
  - destruct (tool_calls am) as [[|tc more]|] eqn:Htc.
    + unfold loop_body. rewrite (exit_test_false _ Hline).
      cbv [try_except bind ret create append]. cbn [chat_history world events].
      rewrite Hllm, Htc. eexists _, _. split; [reflexivity|].
      cbn [events]. tidy. reflexivity.
    + rewrite (loop_body_dispatch tools line s w1 am tc more Hline Hllm Htc).
      destruct (for_each_total am (tc :: more) (asked tools line s w1))
        as (s' & tail & Hrun & _ & Hev).
      { apply snoc_nonempty. }
      unfold bind. rewrite Hrun. exists s', tail. split; [reflexivity|].
      rewrite Hev. unfold asked. cbn [events]. tidy. reflexivity.
    + unfold loop_body. rewrite (exit_test_false _ Hline).
      cbv [try_except bind ret create append]. cbn [chat_history world events].
      rewrite Hllm, Htc. eexists _, _. split; [reflexivity|].
      cbn [events]. tidy. reflexivity.
Qed.

(** ** The tool bridge, as specified *)

(** C8: for every list of ToolSpecs the Tool Registry Server returns, the
    Tool Bridge returns a list of the same length in the same order; its
    i-th descriptor has invocation type "function", and the name, the
    description and the unmodified input schema of the i-th ToolSpec; an
    empty list of ToolSpecs gives an empty list of descriptors.  The
    history is not touched. *)
Theorem tool_bridge_descriptors (s : State) (w' : World) (specs : list (Tool Schema)) :
  list_tools (world s) = (w', inr specs) ->
  exists ds s',
    get_openai_compatible_tools s = (Ok ds, s')
    /\ chat_history s' = chat_history s
    /\ List.length ds = List.length specs
    /\ (forall i spec,
          nth_error specs i = Some spec ->
          exists d,
            nth_error ds i = Some d
            /\ type d = "function"
            /\ name (function d) = tool_name spec
            /\ description (function d) = tool_description spec
            /\ parameters (function d) = tool_inputSchema spec)
    /\ (specs = [] -> ds = []).
Proof.
  intros Hlist.
  exists (convert_tools specs),
         {| chat_history := chat_history s; world := w';
            events := events s ++ [EvListTools] |}.
  split.
  { cbv [get_openai_compatible_tools bind ret mcp_list_tools].
    rewrite Hlist. reflexivity. }
  rewrite convert_tools_map.
  split; [reflexivity|].
  split; [apply length_map|].
  split.
  - intros i spec Hi. exists (openai_tool spec).
    split; [apply map_nth_error; exact Hi|]. cbn. auto.
  - intros ->. reflexivity.
Qed.

(** ** The conversation loop, as specified *)


(** C4: when the model call made after appending the user Message raises,
    the history is again the history H of before the turn (the user
    Message is popped, nothing else is appended), the iteration ends with
    [continue], and the model was called once. *)
Theorem transport_failure_discards_turn
  (tools : list (ChatCompletionToolParam Schema)) (line : string) (s : State)
  (w1 : World) (e : exn) :
  ~ matches_exit line ->
  chat_completions_create (world s) LLM_MODEL
    (chat_history s ++ [RoleContent "user" line]) (tools_or_none tools) (Some "auto")
    = (w1, inl e) ->
  loop_body tools line s
  = (Ok Next,
     {| chat_history := chat_history s;
        world := w1;
        events := events s
          ++ [EvAppend (RoleContent "user" line);
              EvCreate LLM_MODEL (chat_history s ++ [RoleContent "user" line])
                (tools_or_none tools) (Some "auto");
              EvPop (RoleContent "user" line)] |}).
Proof.
  intros Hline Hllm. unfold loop_body. rewrite (exit_test_false _ Hline).
  cbv [try_except bind ret create append pop]. cbn [chat_history world events].
  rewrite Hllm. cbn [chat_history world events]. rewrite unsnoc_snoc.
  cbn [chat_history world events]. tidy. reflexivity.
Qed.

(** C6: when the model call succeeds and its answer carries no tool call
    ([tool_calls] is [None] or empty), the history after the turn is H,
    then the user Message, then that one assistant Message; H is still
    its prefix and nothing was popped. *)
Theorem plain_text_appends_one
  (tools : list (ChatCompletionToolParam Schema)) (line : string) (s : State)
  (w1 : World) (am : ChatCompletionMessage) :
  ~ matches_exit line ->
  chat_completions_create (world s) LLM_MODEL
    (chat_history s ++ [RoleContent "user" line]) (tools_or_none tools) (Some "auto")
    = (w1, inr am) ->
  is_tool_call_message (Completion am) = false ->
  exists s',
    loop_body tools line s = (Ok Next, s')
    /\ chat_history s' = chat_history s ++ [RoleContent "user" line; Completion am]
    /\ firstn (List.length (chat_history s)) (chat_history s') = chat_history s
    /\ pops (events s') = pops (events s).
Proof.
  intros Hline Hllm Hplain.
  exists {| chat_history := chat_history s ++ [RoleContent "user" line; Completion am];
            world := w1;
            events := events s
              ++ [EvAppend (RoleContent "user" line);
                  EvCreate LLM_MODEL (chat_history s ++ [RoleContent "user" line])
                    (tools_or_none tools) (Some "auto");
                  EvAppend (Completion am)] |}.
  split.
  { unfold loop_body. rewrite (exit_test_false _ Hline).
    cbv [try_except bind ret create append]. cbn [chat_history world events].
    rewrite Hllm. cbn in Hplain.
    destruct (tool_calls am) as [[|tc more]|]; try discriminate Hplain;
      cbn [chat_history world events]; tidy; reflexivity. }
  cbn [chat_history events].
  split; [reflexivity|].
  split.
  - rewrite firstn_app, Nat.sub_diag, firstn_all. cbn. apply app_nil_r.
  - rewrite pops_app. cbn. apply app_nil_r.
Qed.

(** ** A batch of tool calls *)

Lemma tool_results_of_entries am (rs : list Served) :
  filter is_tool_result (flat_map (entries am) rs)
  = map (fun r => tool_result (request r) (output r)) rs.
Proof.
  induction rs as [|r rs IH]; cbn; [reflexivity|]. rewrite IH. reflexivity.
Qed.

Lemma length_entries am (rs : list Served) :
  List.length (flat_map (entries am) rs) = 3 * List.length rs.
Proof.
  induction rs as [|r rs IH]; cbn [flat_map List.length]; [reflexivity|].
  rewrite length_app, IH. cbn [entries List.length]. lia.
Qed.

(** The three entries of the i-th call sit at 3i, 3i+1 and 3i+2. *)
Lemma entries_at am (rs : list Served) (i : nat) (r : Served) :
  nth_error rs i = Some r ->
  nth_error (flat_map (entries am) rs) (3 * i) = Some (Completion am)
  /\ nth_error (flat_map (entries am) rs) (3 * i + 1)
     = Some (tool_result (request r) (output r))
  /\ nth_error (flat_map (entries am) rs) (3 * i + 2)
     = Some (Completion (follow_up r)).
Proof.
  revert i. induction rs as [|r0 rs IH]; intros i Hi.
  - destruct i; discriminate Hi.
  - destruct i as [|i].
    + injection Hi as ->. cbn. auto.
    + cbn [nth_error] in Hi. destruct (IH i Hi) as (H0 & H1 & H2).
      replace (3 * S i) with (S (S (S (3 * i)))) by lia.
      cbn [flat_map entries app Nat.add nth_error]. auto.
Qed.

(** C5: in a turn whose model answer asks for N tool calls, with every
    parse, every RPC invocation and every follow-up model call
    succeeding, the history gains (after the user Message) the entries of
    the N calls; among them are exactly N tool-result Messages, in the
    order of the requests, and a follow-up assistant Message (one per
    call, so at least one); every model call after the first one of the
    turn is made without tools. *)
Theorem batch_without_failure
  (tools : list (ChatCompletionToolParam Schema)) (line : string) (s : State)
  (w1 : World) (am : ChatCompletionMessage) (rs : list Served) (s' : State) :
  ~ matches_exit line ->
  chat_completions_create (world s) LLM_MODEL
    (chat_history s ++ [RoleContent "user" line]) (tools_or_none tools) (Some "auto")
    = (w1, inr am) ->
  tool_calls am = Some (map request rs) ->
  rs <> [] ->
  all_succeed am (asked tools line s w1) rs s' ->
  loop_body tools line s = (Ok Next, s')
  /\ chat_history s'
     = chat_history s ++ RoleContent "user" line :: flat_map (entries am) rs
  /\ filter is_tool_result (flat_map (entries am) rs)
     = map (fun r => tool_result (request r) (output r)) rs
  /\ map request rs = match tool_calls am with Some l => l | None => [] end
  /\ List.length (filter is_tool_result (flat_map (entries am) rs)) = List.length rs
  /\ (exists r, In r rs /\ In (Completion (follow_up r)) (flat_map (entries am) rs))
  /\ model_calls (events s')
     = model_calls (events s) ++ tools_or_none tools :: repeat None (List.length rs).
Proof.
  intros Hline Hllm Htc Hne Hall.
  destruct (for_each_all_succeed am _ rs s' Hall) as (Hrun & Hhist & Hmodel & _).
  destruct rs as [|r rs]; [contradiction|].
  split.
  { cbn [map] in Htc.
    rewrite (loop_body_dispatch tools line s w1 am _ _ Hline Hllm Htc).
    unfold bind. cbn [map] in Hrun. rewrite Hrun. reflexivity. }
  split.
  { rewrite Hhist. unfold asked. cbn [chat_history]. tidy. reflexivity. }
  split; [apply tool_results_of_entries|].
  split; [rewrite Htc; reflexivity|].
  split; [rewrite tool_results_of_entries; apply length_map|].
  split.
  { exists r. split; [left; reflexivity|]. cbn. auto. }
  rewrite Hmodel. unfold asked. cbn [events]. rewrite model_calls_app. cbn.
  tidy. reflexivity.
Qed.

(** C10: a batch of N >= 2 calls that all succeed adds 3N entries to the
    history: for the i-th call the model's tool-call message once more
    (the same message for every call), then the call's tool-result
    Message (role ["tool"], the id and the tool name of the request, the
    string of the tool's output), then its follow-up assistant Message;
    N of the entries added are tool-result Messages. *)
Theorem batch_appends_three_per_call (am : ChatCompletionMessage) (s : State)
  (rs : list Served) (s' : State) :
  all_succeed am s rs s' ->
  2 <= List.length rs ->
  for_each (map request rs) (handle_tool_call am) s = (Ok tt, s')
  /\ List.length (chat_history s')
     = List.length (chat_history s) + 3 * List.length rs
  /\ (forall i r,
        nth_error rs i = Some r ->
        nth_error (chat_history s') (List.length (chat_history s) + 3 * i)
        = Some (Completion am)
        /\ nth_error (chat_history s') (List.length (chat_history s) + (3 * i + 1))
           = Some (ToolResult (tc_id (request r)) "tool"
                     (fn_name (tc_function (request r))) (str (output r)))
        /\ nth_error (chat_history s') (List.length (chat_history s) + (3 * i + 2))
           = Some (Completion (follow_up r)))
  /\ List.length
       (filter is_tool_result
          (skipn (List.length (chat_history s)) (chat_history s')))
     = List.length rs.
Proof.
  intros Hall _.
  destruct (for_each_all_succeed am s rs s' Hall) as (Hrun & Hhist & _).
  split; [exact Hrun|]. rewrite Hhist.
  split; [rewrite length_app, length_entries; reflexivity|].
  split;
    [|rewrite skipn_app, skipn_all, Nat.sub_diag; cbn [skipn app];
      rewrite tool_results_of_entries; apply length_map].
  intros i r Hi. destruct (entries_at am rs i r Hi) as (H0 & H1 & H2).
  rewrite !nth_error_app2 by lia.
  replace (List.length (chat_history s) + 3 * i - List.length (chat_history s))
    with (3 * i) by lia.
  replace (List.length (chat_history s) + (3 * i + 1) - List.length (chat_history s))
    with (3 * i + 1) by lia.
  replace (List.length (chat_history s) + (3 * i + 2) - List.length (chat_history s))
    with (3 * i + 2) by lia.
  auto.
Qed.

(** ** Where the tool-call message is appended *)

Lemma recovery_message_plain (e : exn) :
  is_tool_call_message (recovery_message e) = false.
Proof. destruct e; reflexivity. Qed.

(** C3, as the code has it: when the model's answer carries tool calls,
    the [for] loop is entered with nothing appended but the user Message;
    the assistant's tool-call message is appended inside the loop, for each
    pending call whose parse and RPC invocation succeed, right after that
    RPC invocation and right before the call's tool-result Message; a
    call whose parse or RPC invocation fails appends no tool-call
    message. *)
Theorem tool_call_message_follows_rpc
  (tools : list (ChatCompletionToolParam Schema)) (line : string) (s : State)
  (w1 : World) (am : ChatCompletionMessage) (tc : ToolCall) (more : list ToolCall) :
  ~ matches_exit line ->
  chat_completions_create (world s) LLM_MODEL
    (chat_history s ++ [RoleContent "user" line]) (tools_or_none tools) (Some "auto")
    = (w1, inr am) ->
  tool_calls am = Some (tc :: more) ->
  loop_body tools line s
  = bind (for_each (tc :: more) (handle_tool_call am)) (fun _ => ret Next)
      (asked tools line s w1)
  /\ (forall (s0 : State) (c : ToolCall) (args : Json) (w2 : World) (out : ToolOutput),
        json_loads (fn_arguments (tc_function c)) = Some args ->
        call_tool (world s0) (fn_name (tc_function c)) args = (w2, inr out) ->
        exists s1 tail,
          handle_tool_call am c s0 = (Ok tt, s1)
          /\ events s1
             = events s0
                 ++ EvCallTool (fn_name (tc_function c)) args
                 :: EvAppend (Completion am)
                 :: EvAppend (tool_result c out)
                 :: EvCreate LLM_MODEL
                      (chat_history s0 ++ [Completion am; tool_result c out])
                      None None
                 :: tail
          /\ ((exists final, tail = [EvAppend (Completion final)])
              \/ (exists e, tail = [EvPop (tool_result c out);
                                    EvAppend (recovery_message e)])))
  /\ (forall (s0 : State) (c : ToolCall),
        chat_history s0 <> [] ->
        json_loads (fn_arguments (tc_function c)) = None
        \/ (exists args w2 e,
              json_loads (fn_arguments (tc_function c)) = Some args
              /\ call_tool (world s0) (fn_name (tc_function c)) args = (w2, inl e)) ->
        exists s1,
          handle_tool_call am c s0 = (Ok tt, s1)
          /\ count_tool_call_appends (events s1) = count_tool_call_appends (events s0)).
Proof.
  intros Hline Hllm Htc.
  split; [exact (loop_body_dispatch tools line s w1 am tc more Hline Hllm Htc)|].
  split.
  - intros s0 c args w2 out Hparse Hcall.
    destruct (chat_completions_create w2 LLM_MODEL
                (chat_history s0 ++ [Completion am; tool_result c out]) None None)
      as [w3 [e|final]] eqn:Hfollow.
    + rewrite (handle_follow_up_failure am c s0 args w2 out w3 e Hparse Hcall Hfollow).
      eexists _, _. split; [reflexivity|]. cbn [events].
      split; [reflexivity|]. right. exists e. reflexivity.
    + rewrite (handle_success am c s0 args w2 out w3 final Hparse Hcall Hfollow).
      eexists _, _. split; [reflexivity|]. cbn [events].
      split; [reflexivity|]. left. exists final. reflexivity.
  - intros s0 c Hne Hfail.
    destruct (unsnoc_nonempty _ Hne) as (h & m & Hh).
    destruct Hfail as [Hparse | (args & w2 & e & Hparse & Hcall)].
    + rewrite (handle_parse_failure am c s0 h m Hparse Hh).
      eexists. split; [reflexivity|]. cbn [events].
      rewrite count_tool_call_appends_app. cbn. lia.
    + rewrite (handle_rpc_failure am c s0 h m args w2 e Hparse Hcall Hh).
      eexists. split; [reflexivity|]. cbn [events].
      rewrite count_tool_call_appends_app. cbn.
      rewrite recovery_message_plain. lia.
Qed.

(** ** Recovery from a malformed argument payload *)

(** C2, as the code has it: when the argument payload of a pending call
    does not parse, the handler pops one entry off the history and
    appends the one assistant error Message of fixed content; no RPC
    invocation and no model call is made for that call; the [for] loop
    then goes on with the remaining calls of the batch, from that
    history.  When the failing call is the first of its batch, the entry
    popped is the user Message of the turn. *)
Theorem parse_failure_recovery (am : ChatCompletionMessage) (tc : ToolCall)
  (rest : list ToolCall) :
  json_loads (fn_arguments (tc_function tc)) = None ->
  (forall s : State,
      chat_history s <> [] ->
      exists s1 m h,
        handle_tool_call am tc s = (Ok tt, s1)
        /\ for_each (tc :: rest) (handle_tool_call am) s
           = for_each rest (handle_tool_call am) s1
        /\ world s1 = world s
        /\ events s1 = events s ++ [EvPop m; EvAppend parse_error_message]
        /\ chat_history s1 = h ++ [parse_error_message])
  /\ (forall (tools : list (ChatCompletionToolParam Schema)) (line : string)
             (s : State) (w1 : World),
        ~ matches_exit line ->
        chat_completions_create (world s) LLM_MODEL
          (chat_history s ++ [RoleContent "user" line]) (tools_or_none tools)
          (Some "auto")
          = (w1, inr am) ->
        tool_calls am = Some (tc :: rest) ->
        loop_body tools line s
        = bind (for_each rest (handle_tool_call am)) (fun _ => ret Next)
            {| chat_history := chat_history s ++ [parse_error_message];
               world := w1;
               events := events s
                 ++ [EvAppend (RoleContent "user" line);
                     EvCreate LLM_MODEL (chat_history s ++ [RoleContent "user" line])
                       (tools_or_none tools) (Some "auto");
                     EvPop (RoleContent "user" line);
                     EvAppend parse_error_message] |}).
Proof.
  intros Hparse. split.
  - intros s Hne. destruct (unsnoc_nonempty _ Hne) as (h & m & Hh).
    pose proof (handle_parse_failure am tc s h m Hparse Hh) as Hrun.
    eexists _, m, h. split; [exact Hrun|].
    split; [apply for_each_cons; exact Hrun|]. cbn [chat_history world events]. auto.
  - intros tools line s w1 Hline Hllm Htc.
    rewrite (loop_body_dispatch tools line s w1 am tc rest Hline Hllm Htc).
    unfold bind at 1.
    rewrite (for_each_cons _ _ _ _ _
               (handle_parse_failure am tc (asked tools line s w1)
                  (chat_history s) (RoleContent "user" line) Hparse eq_refl)).
    unfold asked. cbn [chat_history world events]. unfold bind. tidy. reflexivity.
Qed.

End ClientFacts.

(** ** The multiply tool behind the client *)

(** C9: [multiply] returns the product of its two integers, whatever
    they are, and so does a call of the registered tool with keyword
    arguments [a] and [b].  In a turn in which the model asks for
    [multiply] with the payload [{"a": 6, "b": 7}], decoded to a = 6 and
    b = 7, the history gains the model's tool-call message, a tool-result
    Message whose content is ["42"], and the one final assistant
    Message. *)
Theorem multiply_scenario (W : Type) (decode : string -> option kwargs)
  (llm : W -> string -> list Message ->
         option (list (ChatCompletionToolParam (list (string * string)))) ->
         option string -> W * (exn + ChatCompletionMessage))
  (tools : list (ChatCompletionToolParam (list (string * string))))
  (line : string) (s : State (E := served W decode llm)) (w1 w2 : W)
  (am final : ChatCompletionMessage) (id : string) (args : kwargs) :
  ~ matches_exit line ->
  llm (world s) LLM_MODEL (chat_history s ++ [RoleContent "user" line])
    (tools_or_none (E := served W decode llm) tools) (Some "auto")
    = (w1, inr am) ->
  tool_calls am
    = Some [ {| tc_id := id;
                tc_function := {| fn_name := "multiply";
                                  fn_arguments := payload_6_7 |} |} ] ->
  decode payload_6_7 = Some args ->
  get_arg "a" args = Some 6%Z ->
  get_arg "b" args = Some 7%Z ->
  llm w1 LLM_MODEL
    (chat_history s
       ++ [RoleContent "user" line; Completion am;
           ToolResult id "tool" "multiply" "42"])
    None None
    = (w2, inr final) ->
  (forall a b : Z, multiply a b = (a * b)%Z)
  /\ (forall (a b : Z) (kw : kwargs),
        get_arg "a" kw = Some a -> get_arg "b" kw = Some b ->
        registry_call_tool "multiply" kw = inr (a * b)%Z)
  /\ exists s',
       loop_body (E := served W decode llm) tools line s = (Ok Next, s')
       /\ chat_history s'
          = chat_history s
              ++ [RoleContent "user" line; Completion am;
                  ToolResult id "tool" "multiply" "42"; Completion final].
Proof.
  intros Hline Hllm Htc Hdecode Ha Hb Hfollow.
  split; [reflexivity|].
  split.
  { intros a b kw Hka Hkb. unfold registry_call_tool. cbn [String.eqb].
    change (String.eqb "multiply" "multiply") with true. cbv iota.
    rewrite Hka, Hkb. reflexivity. }
  set (E := served W decode llm) in *.
  set (tc := {| tc_id := id;
                tc_function := {| fn_name := "multiply";
                                  fn_arguments := payload_6_7 |} |}) in *.
  assert (Hcall : call_tool (Externals := E) w1 (fn_name (tc_function tc)) args
                  = (w1, inr 42%Z)).
  { cbn. unfold registry_call_tool.
    change (String.eqb "multiply" "multiply") with true. cbv iota.
    rewrite Ha, Hb. reflexivity. }
  pose proof (loop_body_dispatch (E := E) tools line s w1 am tc [] Hline Hllm Htc)
    as Hbody.
  assert (Hone : handle_tool_call (E := E) am tc (asked (E := E) tools line s w1)
                 = (Ok tt,
                    {| chat_history :=
                         chat_history (asked (E := E) tools line s w1)
                           ++ entries am (tc, 42%Z, final);
                       world := w2;
                       events :=
                         events (asked (E := E) tools line s w1)
                           ++ [EvCallTool "multiply" args;
                               EvAppend (Completion am);
                               EvAppend (ToolResult id "tool" "multiply" "42");
                               EvCreate LLM_MODEL
                                 (chat_history (asked (E := E) tools line s w1)
                                    ++ [Completion am;
                                        ToolResult id "tool" "multiply" "42"])
                                 None None;
                               EvAppend (Completion final)] |})).
  { apply (handle_success (E := E) am tc (asked (E := E) tools line s w1) args w1 42%Z w2 final).
    - exact Hdecode.
    - exact Hcall.
    - cbn [asked chat_history]. rewrite <- app_assoc. exact Hfollow. }
  eexists. split.
  - rewrite Hbody. unfold bind. cbn [for_each]. unfold bind. rewrite Hone.
    reflexivity.
  - cbn [chat_history asked]. rewrite <- app_assoc. reflexivity.
Qed.

(** ** Runs against the scripted world *)

Ltac not_exit :=
  let H := fresh "H" in
  intros H; apply exit_test in H; vm_compute in H; discriminate H.

(** C1: the model asks for a good call and then for one with a malformed
    payload.  The first call appends three entries after the user
    Message; the handler of the second call then pops the follow-up
    assistant Message of the first call, not the user Message, which
    stays in the history. *)
Theorem recovery_pops_follow_up_message :
  chat_history (Scripted.turn Scripted.ok_then_malformed)
  = [RoleContent "user" Scripted.question;
     Completion (Scripted.asks [Scripted.call_ok "call_1";
                                Scripted.call_malformed "call_2"]);
     ToolResult "call_1" "tool" "multiply" "42";
     parse_error_message]
  /\ pops (events (Scripted.turn Scripted.ok_then_malformed))
     = [Completion Scripted.summary]
  /\ rpc_calls (events (Scripted.turn Scripted.ok_then_malformed)) = ["multiply"].
Proof. repeat split; vm_compute; reflexivity. Qed.

(** C2 does not hold as stated: the model asks for a call with a
    malformed payload and then for a good one.  Were the rest of the
    batch aborted, the history would end up as the error Message alone and
    no RPC invocation would be made; the second call is dispatched all
    the same. *)
Lemma remaining_calls_not_aborted :
  ~ (chat_history (Scripted.turn Scripted.malformed_then_ok) = [parse_error_message]
     /\ rpc_calls (events (Scripted.turn Scripted.malformed_then_ok)) = []).
Proof. intros [_ H]. vm_compute in H. discriminate H. Qed.

(** C3 does not hold as stated: the model asks for two good calls.  The
    tool-call message is appended twice, not once, and a tool is invoked
    before its first append. *)
Lemma tool_call_message_not_once_before_dispatch :
  ~ (count_tool_call_appends (events (Scripted.turn Scripted.two_ok)) = 1
     /\ dispatched_before_append (events (Scripted.turn Scripted.two_ok)) = false).
Proof. intros [_ H]. vm_compute in H. discriminate H. Qed.

(** The bridge on the one tool the server registers. *)
Lemma tool_bridge_descriptors_witness :
  exists ds s',
    get_openai_compatible_tools (E := Scripted.externals)
      (initial (E := Scripted.externals) Scripted.plain) = (Ok ds, s')
    /\ List.length ds = 1.
Proof.
  destruct (tool_bridge_descriptors (E := Scripted.externals)
              (initial (E := Scripted.externals) Scripted.plain)
              Scripted.plain registered_tools eq_refl)
    as (ds & s' & Hrun & _ & Hlen & _).
  exists ds, s'. split; [exact Hrun | exact Hlen].
Defined.

(** A turn against an endpoint that cannot be reached. *)
Lemma transport_failure_discards_turn_witness :
  chat_history (Scripted.turn Scripted.refused) = []
  /\ pops (events (Scripted.turn Scripted.refused))
     = [RoleContent "user" Scripted.question].
Proof.
  unfold Scripted.turn.
  rewrite (transport_failure_discards_turn (E := Scripted.externals)
             Scripted.tools Scripted.question
             (initial (E := Scripted.externals) Scripted.refused)
             [] (Exception "Connection error.")
             ltac:(not_exit) eq_refl).
  split; reflexivity.
Defined.

(** A turn the model answers in plain text. *)
Lemma plain_text_appends_one_witness :
  exists s',
    loop_body (E := Scripted.externals) Scripted.tools Scripted.question
      (initial (E := Scripted.externals) Scripted.plain) = (Ok Next, s')
    /\ chat_history s'
       = [RoleContent "user" Scripted.question; Completion Scripted.summary].
Proof.
  destruct (plain_text_appends_one (E := Scripted.externals)
              Scripted.tools Scripted.question
              (initial (E := Scripted.externals) Scripted.plain)
              [] Scripted.summary ltac:(not_exit) eq_refl eq_refl)
    as (s' & Hrun & Hhist & _).
  exists s'. split; [exact Hrun | exact Hhist].
Defined.

(** Nothing fails in the turn of [Scripted.two_ok]. *)
Lemma two_served_succeed :
  all_succeed (E := Scripted.externals)
    (Scripted.asks [Scripted.call_ok "call_1"; Scripted.call_ok "call_2"])
    (asked (E := Scripted.externals) Scripted.tools Scripted.question
       (initial (E := Scripted.externals) Scripted.two_ok)
       [inr Scripted.summary; inr Scripted.summary_again])
    Scripted.two_served
    (Scripted.turn Scripted.two_ok).
Proof.
  eapply (all_succeed_cons (E := Scripted.externals)); [reflexivity ..|].
  eapply (all_succeed_cons (E := Scripted.externals)); [reflexivity ..|].
  apply (all_succeed_nil (E := Scripted.externals)).
Defined.

(** A turn with two good calls: two tool results in request order, and
    the two follow-up model calls without tools. *)
Lemma batch_without_failure_witness :
  filter is_tool_result (chat_history (Scripted.turn Scripted.two_ok))
  = [ToolResult "call_1" "tool" "multiply" "42";
     ToolResult "call_2" "tool" "multiply" "42"]
  /\ model_calls (events (Scripted.turn Scripted.two_ok))
     = [Some Scripted.tools; None; None].
Proof.
  destruct (batch_without_failure (E := Scripted.externals)
              Scripted.tools Scripted.question
              (initial (E := Scripted.externals) Scripted.two_ok)
              [inr Scripted.summary; inr Scripted.summary_again]
              (Scripted.asks [Scripted.call_ok "call_1"; Scripted.call_ok "call_2"])
              Scripted.two_served (Scripted.turn Scripted.two_ok)
              ltac:(not_exit) eq_refl eq_refl ltac:(discriminate)
              two_served_succeed)
    as (_ & Hhist & _ & _ & _ & _ & Hmodel).
  rewrite Hhist, Hmodel. split; reflexivity.
Defined.

(** A turn with two good calls: seven entries, the tool-call message
    again at the head of the second call's three, then that call's
    tool-result Message. *)
Lemma batch_appends_three_per_call_witness :
  List.length (chat_history (Scripted.turn Scripted.two_ok)) = 1 + 3 * 2
  /\ nth_error (chat_history (Scripted.turn Scripted.two_ok)) (1 + 3 * 1)
     = Some (Completion (Scripted.asks [Scripted.call_ok "call_1";
                                        Scripted.call_ok "call_2"]))
  /\ nth_error (chat_history (Scripted.turn Scripted.two_ok)) (1 + (3 * 1 + 1))
     = Some (ToolResult "call_2" "tool" "multiply" "42")
  /\ List.length
       (filter is_tool_result (skipn 1 (chat_history (Scripted.turn Scripted.two_ok))))
     = 2.
Proof.
  destruct (batch_appends_three_per_call (E := Scripted.externals)
              (Scripted.asks [Scripted.call_ok "call_1"; Scripted.call_ok "call_2"])
              (asked (E := Scripted.externals) Scripted.tools Scripted.question
                 (initial (E := Scripted.externals) Scripted.two_ok)
                 [inr Scripted.summary; inr Scripted.summary_again])
              Scripted.two_served (Scripted.turn Scripted.two_ok)
              two_served_succeed ltac:(vm_compute; lia))
    as (_ & Hlen & Hat & Hcount).
  destruct (Hat 1 (Scripted.call_ok "call_2", 42%Z, Scripted.summary_again) eq_refl)
    as (Hcall & Hresult & _).
  split; [exact Hlen|]. split; [exact Hcall|]. split; [exact Hresult|exact Hcount].
Defined.

(** A turn with two good calls enters the [for] loop with the user
    Message alone in the history. *)
Lemma tool_call_message_follows_rpc_witness :
  loop_body (E := Scripted.externals) Scripted.tools Scripted.question
    (initial (E := Scripted.externals) Scripted.two_ok)
  = bind (for_each [Scripted.call_ok "call_1"; Scripted.call_ok "call_2"]
            (handle_tool_call (E := Scripted.externals)
               (Scripted.asks [Scripted.call_ok "call_1"; Scripted.call_ok "call_2"])))
      (fun _ => ret Next)
      (asked (E := Scripted.externals) Scripted.tools Scripted.question
         (initial (E := Scripted.externals) Scripted.two_ok)
         [inr Scripted.summary; inr Scripted.summary_again]).
Proof.
  exact (proj1 (tool_call_message_follows_rpc (E := Scripted.externals)
                  Scripted.tools Scripted.question
                  (initial (E := Scripted.externals) Scripted.two_ok)
                  [inr Scripted.summary; inr Scripted.summary_again]
                  (Scripted.asks [Scripted.call_ok "call_1"; Scripted.call_ok "call_2"])
                  (Scripted.call_ok "call_1") [Scripted.call_ok "call_2"]
                  ltac:(not_exit) eq_refl eq_refl)).
Defined.

(** A malformed first call: the user Message is replaced by the error
    Message, and the loop goes on to the second call. *)
Lemma parse_failure_recovery_witness :
  loop_body (E := Scripted.externals) Scripted.tools Scripted.question
    (initial (E := Scripted.externals) Scripted.malformed_then_ok)
  = bind (for_each [Scripted.call_ok "call_2"]
            (handle_tool_call (E := Scripted.externals)
               (Scripted.asks [Scripted.call_malformed "call_1";
                               Scripted.call_ok "call_2"])))
      (fun _ => ret Next)
      (Build_State (E := Scripted.externals)
         [parse_error_message]
         [inr Scripted.summary]
         [EvAppend (RoleContent "user" Scripted.question);
          EvCreate LLM_MODEL [RoleContent "user" Scripted.question]
            (Some Scripted.tools) (Some "auto");
          EvPop (RoleContent "user" Scripted.question);
          EvAppend parse_error_message]).
Proof.
  exact (proj2 (parse_failure_recovery (E := Scripted.externals)
                  (Scripted.asks [Scripted.call_malformed "call_1";
                                  Scripted.call_ok "call_2"])
                  (Scripted.call_malformed "call_1") [Scripted.call_ok "call_2"]
                  eq_refl)
           Scripted.tools Scripted.question
           (initial (E := Scripted.externals) Scripted.malformed_then_ok)
           [inr Scripted.summary] ltac:(not_exit) eq_refl eq_refl).
Defined.

(** The scenario against the scripted endpoint. *)
Lemma multiply_scenario_witness :
  exists s',
    loop_body (E := Scripted.externals) Scripted.tools Scripted.question
      (initial (E := Scripted.externals) Scripted.one_ok) = (Ok Next, s')
    /\ chat_history s'
       = [RoleContent "user" Scripted.question;
          Completion (Scripted.asks [Scripted.call_ok "call_1"]);
          ToolResult "call_1" "tool" "multiply" "42";
          Completion Scripted.summary].
Proof.
  exact (proj2 (proj2 (multiply_scenario Scripted.Script Scripted.decode Scripted.llm
                         Scripted.tools Scripted.question
                         (initial (E := Scripted.externals) Scripted.one_ok)
                         [inr Scripted.summary] []
                         (Scripted.asks [Scripted.call_ok "call_1"]) Scripted.summary
                         "call_1" [("a", 6%Z); ("b", 7%Z)]
                         ltac:(not_exit) eq_refl eq_refl eq_refl eq_refl eq_refl
                         eq_refl))).
Defined.

(** * The whole turn and the whole session *)

Section SessionFacts.
Context {E : Externals}.

(** ** The body of the [for] loop, case by case *)

Lemma handle_handled am tc s :
  chat_history s <> [] ->
  exists s', handle_tool_call am tc s = (Ok tt, s') /\ handled am tc s s'.
Proof.
  intros Hne. destruct (unsnoc_nonempty _ Hne) as (h & m & Hh).
  destruct (json_loads (fn_arguments (tc_function tc))) as [args|] eqn:Hparse.
  - destruct (call_tool (world s) (fn_name (tc_function tc)) args)
      as [w1 [e|out]] eqn:Hcall.
    + eexists. split.
      * exact (handle_rpc_failure am tc s h m args w1 e Hparse Hcall Hh).
      * now apply handled_rpc_failure.
    + destruct (chat_completions_create w1 LLM_MODEL
                  (chat_history s ++ [Completion am; tool_result tc out]) None None)
        as [w2 [e|final]] eqn:Hllm.
      * eexists. split.
        -- exact (handle_follow_up_failure am tc s args w1 out w2 e Hparse Hcall Hllm).
        -- now apply handled_follow_up_failure with (w1 := w1).
      * eexists. split.
        -- exact (handle_success am tc s args w1 out w2 final Hparse Hcall Hllm).
        -- now apply handled_success with (w1 := w1).
  - eexists. split.
    + exact (handle_parse_failure am tc s h m Hparse Hh).
    + now apply handled_parse_failure.
Qed.

Lemma split_last {A : Type} (H suf h : list A) (m : A) :
  H ++ suf = h ++ [m] -> suf <> [] -> exists p, suf = p ++ [m] /\ h = H ++ p.
Proof.
  intros Heq Hne. destruct (exists_last Hne) as (p & x & ->).
  rewrite app_assoc in Heq. apply app_inj_tail in Heq as [<- <-].
  exists p. auto.
Qed.

Lemma is_assistant_recovery (e : exn) : is_assistant (recovery_message e) = true.
Proof. destruct e; reflexivity. Qed.

Lemma discoveries_app (l l' : list (Event Schema Json)) :
  discoveries (l ++ l') = discoveries l + discoveries l'.
Proof. induction l as [|[] l IHl]; cbn; rewrite ?IHl; reflexivity. Qed.

(** What one pass through the body does to the part of the history that
    the turn added: it stays non-empty, ends in an entry of the
    assistant, and gains nothing but model answers, results of this call
    and error reports. *)
Lemma handled_history am tc s s' (H suf : list Message) :
  handled am tc s s' ->
  chat_history s = H ++ suf ->
  suf <> [] ->
  exists p m,
    chat_history s' = H ++ p ++ [m]
    /\ is_assistant m = true
    /\ forall P : Message -> Prop,
         Forall P suf ->
         (forall c, P (Completion c)) ->
         (forall out, P (tool_result tc out)) ->
         (forall e, P (recovery_message e)) ->
         Forall P (p ++ [m]).
Proof.
  intros Hstep Hh Hne.
  destruct Hstep as [h m Hparse Hs | h m args w1 e Hparse Hcall Hs
                    | args w1 out w2 e Hparse Hcall Hllm
                    | args w1 out w2 final Hparse Hcall Hllm];
    cbn [chat_history].
  - rewrite Hh in Hs. destruct (split_last _ _ _ _ Hs Hne) as (p & -> & ->).
    exists p, parse_error_message.
    split; [rewrite <- app_assoc; reflexivity|]. split; [reflexivity|].
    intros P Hsuf _ _ Hrec. apply Forall_app in Hsuf as [Hp _].
    apply Forall_app. split; [exact Hp|].
    constructor; [exact (Hrec (JSONDecodeError EmptyString))|constructor].
  - rewrite Hh in Hs. destruct (split_last _ _ _ _ Hs Hne) as (p & -> & ->).
    exists p, (recovery_message e).
    split; [rewrite <- app_assoc; reflexivity|].
    split; [apply is_assistant_recovery|].
    intros P Hsuf _ _ Hrec. apply Forall_app in Hsuf as [Hp _].
    apply Forall_app. split; [exact Hp|].
    constructor; [apply Hrec|constructor].
  - exists (suf ++ [Completion am]), (recovery_message e).
    split; [rewrite Hh, <- !app_assoc; reflexivity|].
    split; [apply is_assistant_recovery|].
    intros P Hsuf Hc _ Hrec.
    repeat (apply Forall_app; split); try assumption;
      (constructor; [auto|constructor]).
  - exists (suf ++ [Completion am; tool_result tc out]), (Completion final).
    split; [rewrite Hh, <- !app_assoc; reflexivity|].
    split; [reflexivity|].
    intros P Hsuf Hc Hout _.
    repeat (apply Forall_app; split); try assumption.
    + constructor; [apply Hc|]. constructor; [apply Hout|constructor].
    + constructor; [apply Hc|constructor].
Qed.

(** What one pass through the body does to the outside world: one RPC
    invocation if and only if the payload parses, at most one model call,
    without tools, and no tool discovery. *)
Lemma handled_events am tc s s' :
  handled am tc s s' ->
  rpc_calls (events s')
  = rpc_calls (events s)
      ++ (if parses tc then [fn_name (tc_function tc)] else [])
  /\ (exists k, k <= 1
               /\ model_calls (events s') = model_calls (events s) ++ repeat None k)
  /\ discoveries (events s') = discoveries (events s).
Proof.
  intros Hstep.
  destruct Hstep as [h m Hparse Hs | h m args w1 e Hparse Hcall Hs
                    | args w1 out w2 e Hparse Hcall Hllm
                    | args w1 out w2 final Hparse Hcall Hllm];
    cbn [events]; unfold parses; rewrite Hparse;
    rewrite rpc_calls_app, model_calls_app, discoveries_app; cbn;
    (split; [reflexivity|]); (split; [|lia]).
  - exists 0. split; [lia|reflexivity].
  - exists 0. split; [lia|reflexivity].
  - exists 1. split; [lia|reflexivity].
  - exists 1. split; [lia|reflexivity].
Qed.

(** ** The whole [for] loop *)

Lemma for_each_summary am (l : list ToolCall) :
  forall (s : State) (H suf : list Message),
    chat_history s = H ++ suf ->
    suf <> [] ->
    exists s' suf',
      for_each l (handle_tool_call am) s = (Ok tt, s')
      /\ chat_history s' = H ++ suf'
      /\ suf' <> []
      /\ (l <> [] -> exists p m, suf' = p ++ [m] /\ is_assistant m = true)
      /\ (forall P : Message -> Prop,
            Forall P suf ->
            (forall c, P (Completion c)) ->
            (forall tc out, In tc l -> P (tool_result tc out)) ->
            (forall e, P (recovery_message e)) ->
            Forall P suf')
      /\ rpc_calls (events s')
         = rpc_calls (events s)
             ++ map (fun tc => fn_name (tc_function tc)) (filter parses l)
      /\ (exists k, k <= List.length l
                   /\ model_calls (events s')
                      = model_calls (events s) ++ repeat None k)
      /\ discoveries (events s') = discoveries (events s).
Proof.
  induction l as [|tc l IH]; intros s H suf Hh Hne.
  - exists s, suf. cbn. rewrite !app_nil_r.
    repeat split; auto.
    + intros Hnil. contradiction.
    + exists 0. cbn. rewrite app_nil_r. auto.
  - assert (Hs : chat_history s <> []).
    { rewrite Hh. destruct H; [exact Hne|discriminate]. }
    destruct (handle_handled am tc s Hs) as (s1 & Hrun & Hstep).
    destruct (handled_history am tc s s1 H suf Hstep Hh Hne)
      as (p & m & Hh1 & Hm & HP).
    destruct (handled_events am tc s s1 Hstep) as (Hrpc1 & (k1 & Hk1 & Hmod1) & Hd1).
    destruct (IH s1 H (p ++ [m]) Hh1 (snoc_nonempty p m))
      as (s' & suf' & Hrun' & Hh' & Hne' & Hlast & HP' & Hrpc' & (k & Hk & Hmod') & Hd').
    exists s', suf'.
    split; [rewrite (for_each_cons _ _ _ _ _ Hrun); exact Hrun'|].
    split; [exact Hh'|]. split; [exact Hne'|].
    split.
    { intros _. destruct l as [|tc' l'].
      - cbn in Hrun'. injection Hrun' as <-. rewrite Hh1 in Hh'.
        apply app_inv_head in Hh'. subst suf'. exists p, m. auto.
      - apply Hlast. discriminate. }
    split.
    { intros P Hsuf Hc Hout Hrec. apply HP'; auto.
      - apply HP; auto. intros out. apply Hout. left. reflexivity.
      - intros tc0 out Hin. apply Hout. right. exact Hin. }
    split.
    { rewrite Hrpc', Hrpc1, <- app_assoc. cbn [filter].
      destruct (parses tc); reflexivity. }
    split; [|congruence].
    exists (k1 + k). split; [cbn [List.length]; lia|].
    rewrite Hmod', Hmod1, <- app_assoc, repeat_app. reflexivity.
Qed.

(** ** One iteration, whatever the outside world does *)

Ltac flat := repeat rewrite <- app_assoc; cbn [app].

(** The iteration whose first model call raises. *)
Lemma loop_body_refused tools line s w1 e :
  ~ matches_exit line ->
  chat_completions_create (world s) LLM_MODEL
    (chat_history s ++ [RoleContent "user" line]) (tools_or_none tools) (Some "auto")
    = (w1, inl e) ->
  loop_body tools line s
  = (Ok Next,
     {| chat_history := chat_history s;
        world := w1;
        events := events (asked tools line s w1) ++ [EvPop (RoleContent "user" line)] |}).
Proof.
  intros Hline Hllm. unfold loop_body. rewrite (exit_test_false _ Hline).
  cbv [try_except bind ret create append pop]. cbn [chat_history world events].
  rewrite Hllm. cbn [chat_history world events]. rewrite unsnoc_snoc.
  unfold asked. cbn [chat_history world events]. flat. reflexivity.
Qed.

(** The iteration whose model answer carries no tool call. *)
Lemma loop_body_plain tools line s w1 am :
  ~ matches_exit line ->
  chat_completions_create (world s) LLM_MODEL
    (chat_history s ++ [RoleContent "user" line]) (tools_or_none tools) (Some "auto")
    = (w1, inr am) ->
  pending am = [] ->
  loop_body tools line s
  = (Ok Next,
     {| chat_history := chat_history s ++ [RoleContent "user" line; Completion am];
        world := w1;
        events := events (asked tools line s w1) ++ [EvAppend (Completion am)] |}).
Proof.
  intros Hline Hllm Hnone. unfold loop_body. rewrite (exit_test_false _ Hline).
  cbv [try_except bind ret create append]. cbn [chat_history world events].
  rewrite Hllm. unfold pending in Hnone.
  destruct (tool_calls am) as [[|tc more]|]; try discriminate Hnone;
    unfold asked; cbn [chat_history world events]; flat; reflexivity.
Qed.

Lemma pending_cons am tc more :
  pending am = tc :: more -> tool_calls am = Some (tc :: more).
Proof.
  unfold pending. destruct (tool_calls am) as [l|]; intros H; [|discriminate H].
  rewrite H. reflexivity.
Qed.

(** The iteration whose model answer carries tool calls: the [for] loop
    runs to its end on the history that the user Message extends. *)
Lemma loop_body_batch tools line s w1 am :
  ~ matches_exit line ->
  chat_completions_create (world s) LLM_MODEL
    (chat_history s ++ [RoleContent "user" line]) (tools_or_none tools) (Some "auto")
    = (w1, inr am) ->
  pending am <> [] ->
  exists s' suf,
    loop_body tools line s = (Ok Next, s')
    /\ chat_history s' = chat_history s ++ suf
    /\ (exists p m, suf = p ++ [m] /\ is_assistant m = true)
    /\ (forall P : Message -> Prop,
          P (RoleContent "user" line) ->
          (forall c, P (Completion c)) ->
          (forall tc out, In tc (pending am) -> P (tool_result tc out)) ->
          (forall e, P (recovery_message e)) ->
          Forall P suf)
    /\ rpc_calls (events s')
       = rpc_calls (events s)
           ++ map (fun tc => fn_name (tc_function tc)) (filter parses (pending am))
    /\ (exists k, k <= List.length (pending am)
                 /\ model_calls (events s')
                    = model_calls (events s)
                        ++ tools_or_none tools :: repeat None k)
    /\ discoveries (events s') = discoveries (events s).
Proof.
  intros Hline Hllm Hpending.
  destruct (pending am) as [|tc more] eqn:Hp; [contradiction|].
  pose proof (pending_cons am tc more Hp) as Htc.
  destruct (for_each_summary am (tc :: more) (asked tools line s w1)
              (chat_history s) [RoleContent "user" line] eq_refl
              ltac:(discriminate))
    as (s' & suf & Hrun & Hh & _ & Hlast & HP & Hrpc & (k & Hk & Hmod) & Hd).
  exists s', suf.
  split.
  { rewrite (loop_body_dispatch tools line s w1 am tc more Hline Hllm Htc).
    unfold bind. rewrite Hrun. reflexivity. }
  split; [exact Hh|].
  split; [apply Hlast; discriminate|].
  split.
  { intros P Huser Hc Hout Hrec. apply HP; auto. }
  split.
  { rewrite Hrpc. unfold asked. cbn [events].
    rewrite rpc_calls_app. cbn. rewrite app_nil_r. reflexivity. }
  split.
  { exists k. split; [exact Hk|]. rewrite Hmod. unfold asked. cbn [events].
    rewrite model_calls_app. cbn. flat. reflexivity. }
  rewrite Hd. unfold asked. cbn [events]. rewrite discoveries_app. cbn. lia.
Qed.

(** Every iteration on a line other than ["exit"]. *)
Lemma loop_body_summary tools line s :
  ~ matches_exit line ->
  exists s' suf k,
    loop_body tools line s = (Ok Next, s')
    /\ chat_history s' = chat_history s ++ suf
    /\ (suf = [] \/ exists p m, suf = p ++ [m] /\ is_assistant m = true)
    /\ model_calls (events s')
       = model_calls (events s) ++ tools_or_none tools :: repeat None k
    /\ discoveries (events s') = discoveries (events s).
Proof.
  intros Hline.
  destruct (chat_completions_create (world s) LLM_MODEL
              (chat_history s ++ [RoleContent "user" line])
              (tools_or_none tools) (Some "auto")) as [w1 [e|am]] eqn:Hllm.
  - eexists _, [], 0. split; [exact (loop_body_refused tools line s w1 e Hline Hllm)|].
    cbn [chat_history events]. unfold asked. cbn [events].
    rewrite app_nil_r, !model_calls_app, !discoveries_app. cbn.
    rewrite app_nil_r. repeat split; auto; lia.
  - destruct (pending am) as [|tc more] eqn:Hp.
    + eexists _, [RoleContent "user" line; Completion am], 0.
      split; [exact (loop_body_plain tools line s w1 am Hline Hllm Hp)|].
      cbn [chat_history events]. unfold asked. cbn [events].
      rewrite !model_calls_app, !discoveries_app. cbn. rewrite app_nil_r.
      repeat split; auto; [|lia].
      right. exists [RoleContent "user" line], (Completion am). auto.
    + destruct (loop_body_batch tools line s w1 am Hline Hllm)
        as (s' & suf & Hrun & Hh & Hlast & _ & _ & (k & _ & Hmod) & Hd).
      { rewrite Hp. discriminate. }
      exists s', suf, k. auto.
Qed.

(** ** The loop over the lines *)

Lemma matches_exit_dec (line : string) : {matches_exit line} + {~ matches_exit line}.
Proof.
  destruct (String.eqb (lower line) "exit") eqn:Heq.
  - left. apply exit_test. exact Heq.
  - right. intros H. apply exit_test in H. congruence.
Qed.

(** A relation between the states before and after an iteration that is
    reflexive and transitive holds between the states before and after
    the whole loop. *)
Lemma chat_loop_preserves (R : State -> State -> Prop) tools :
  (forall s, R s s) ->
  (forall s1 s2 s3, R s1 s2 -> R s2 s3 -> R s1 s3) ->
  (forall line s, R s (snd (loop_body tools line s))) ->
  forall lines s, R s (snd (chat_loop tools lines s)).
Proof.
  intros Hrefl Htrans Hstep. induction lines as [|line rest IH]; intros s.
  - cbn. apply Hrefl.
  - cbn [chat_loop]. unfold bind. specialize (Hstep line s).
    destruct (loop_body tools line s) as [[[|]|e] s1]; cbn [snd] in *.
    + exact Hstep.
    + exact (Htrans _ _ _ Hstep (IH s1)).
    + exact Hstep.
Qed.

(** ** Failures inside the first call of a batch *)

(** X1: when the first pending call of a turn parses but its RPC
    invocation raises an [Exception], the user Message is popped and
    replaced by the assistant error Message that embeds [str(e)]; the tool
    was invoked once, no follow-up model call is made for that call, and
    the loop goes on with the remaining calls. *)
Theorem tool_failure_recovery
  (tools : list (ChatCompletionToolParam Schema)) (line : string) (s : State)
  (w1 w2 : World) (am : ChatCompletionMessage) (tc : ToolCall)
  (rest : list ToolCall) (args : Json) (msg : string) :
  ~ matches_exit line ->
  chat_completions_create (world s) LLM_MODEL
    (chat_history s ++ [RoleContent "user" line]) (tools_or_none tools) (Some "auto")
    = (w1, inr am) ->
  tool_calls am = Some (tc :: rest) ->
  json_loads (fn_arguments (tc_function tc)) = Some args ->
  call_tool w1 (fn_name (tc_function tc)) args = (w2, inl (Exception msg)) ->
  loop_body tools line s
  = bind (for_each rest (handle_tool_call am)) (fun _ => ret Next)
      {| chat_history :=
           chat_history s
             ++ [RoleContent "assistant"
                   ("I encountered an error while trying to use a tool: " ++ msg)%string];
         world := w2;
         events := events s
           ++ [EvAppend (RoleContent "user" line);
               EvCreate LLM_MODEL (chat_history s ++ [RoleContent "user" line])
                 (tools_or_none tools) (Some "auto");
               EvCallTool (fn_name (tc_function tc)) args;
               EvPop (RoleContent "user" line);
               EvAppend
                 (RoleContent "assistant"
                    ("I encountered an error while trying to use a tool: " ++ msg)%string)] |}.
Proof.
  intros Hline Hllm Htc Hparse Hcall.
  rewrite (loop_body_dispatch tools line s w1 am tc rest Hline Hllm Htc).
  unfold bind at 1.
  rewrite (for_each_cons _ _ _ _ _
             (handle_rpc_failure am tc (asked tools line s w1)
                (chat_history s) (RoleContent "user" line) args w2 (Exception msg)
                Hparse Hcall eq_refl)).
  unfold asked. cbn [chat_history world events recovery_message tool_error_message exn_str].
  unfold bind. flat. reflexivity.
Qed.

(** X2: when the first pending call of a turn parses and its RPC
    invocation returns, but the follow-up model call raises an
    [Exception], the entry the handler pops is the tool-result Message
    just appended: the user Message and the assistant's tool-call message
    stay in the history, followed by the error Message, and the loop goes
    on with the remaining calls. *)
Theorem follow_up_failure_drops_tool_result
  (tools : list (ChatCompletionToolParam Schema)) (line : string) (s : State)
  (w1 w2 w3 : World) (am : ChatCompletionMessage) (tc : ToolCall)
  (rest : list ToolCall) (args : Json) (out : ToolOutput) (msg : string) :
  ~ matches_exit line ->
  chat_completions_create (world s) LLM_MODEL
    (chat_history s ++ [RoleContent "user" line]) (tools_or_none tools) (Some "auto")
    = (w1, inr am) ->
  tool_calls am = Some (tc :: rest) ->
  json_loads (fn_arguments (tc_function tc)) = Some args ->
  call_tool w1 (fn_name (tc_function tc)) args = (w2, inr out) ->
  chat_completions_create w2 LLM_MODEL
    (chat_history s ++ [RoleContent "user" line; Completion am; tool_result tc out])
    None None
    = (w3, inl (Exception msg)) ->
  exists s1,
    loop_body tools line s
    = bind (for_each rest (handle_tool_call am)) (fun _ => ret Next) s1
    /\ chat_history s1
       = chat_history s
           ++ [RoleContent "user" line; Completion am;
               RoleContent "assistant"
                 ("I encountered an error while trying to use a tool: " ++ msg)%string]
    /\ world s1 = w3
    /\ pops (events s1) = pops (events s) ++ [tool_result tc out]
    /\ rpc_calls (events s1) = rpc_calls (events s) ++ [fn_name (tc_function tc)].
Proof.
  intros Hline Hllm Htc Hparse Hcall Hfollow.
  rewrite (loop_body_dispatch tools line s w1 am tc rest Hline Hllm Htc).
  eexists. split.
  { unfold bind at 1.
    rewrite (for_each_cons _ _ _ _ _
               (handle_follow_up_failure am tc (asked tools line s w1)
                  args w2 out w3 (Exception msg) Hparse Hcall
                  ltac:(cbn [asked chat_history]; rewrite <- app_assoc;
                        exact Hfollow))).
    reflexivity. }
  unfold asked.
  cbn [chat_history world events recovery_message tool_error_message exn_str].
  rewrite !pops_app, !rpc_calls_app. cbn. rewrite !app_nil_r. flat. auto.
Qed.

(** ** A batch of malformed calls *)

Lemma parses_false tc :
  parses tc = false -> json_loads (fn_arguments (tc_function tc)) = None.
Proof.
  unfold parses. destruct (json_loads _); [discriminate|reflexivity].
Qed.

Lemma for_each_all_malformed am (l : list ToolCall) :
  Forall (fun tc => parses tc = false) l ->
  l <> [] ->
  forall (s : State) (h : list Message) (m : Message),
    chat_history s = h ++ [m] ->
    exists s',
      for_each l (handle_tool_call am) s = (Ok tt, s')
      /\ chat_history s' = h ++ [parse_error_message]
      /\ world s' = world s
      /\ pops (events s')
         = pops (events s) ++ m :: repeat parse_error_message (List.length l - 1)
      /\ rpc_calls (events s') = rpc_calls (events s)
      /\ model_calls (events s') = model_calls (events s).
Proof.
  induction 1 as [|tc l Htc Hl IH]; intros Hne s h m Hh; [contradiction|].
  pose proof (handle_parse_failure am tc s h m (parses_false tc Htc) Hh) as Hrun.
  rewrite (for_each_cons _ _ _ _ _ Hrun).
  destruct l as [|tc' l'].
  - eexists. split; [reflexivity|]. cbn [chat_history world events].
    rewrite pops_app, rpc_calls_app, model_calls_app. cbn.
    rewrite !app_nil_r. auto.
  - destruct (IH ltac:(discriminate)
                {| chat_history := h ++ [parse_error_message];
                   world := world s;
                   events := events s ++ [EvPop m; EvAppend parse_error_message] |}
                h parse_error_message eq_refl)
      as (s' & Hrun' & Hh' & Hw' & Hp' & Hr' & Hm').
    exists s'. split; [exact Hrun'|]. split; [exact Hh'|]. split; [exact Hw'|].
    rewrite Hp', Hr', Hm'. cbn [events].
    rewrite pops_app, rpc_calls_app, model_calls_app. cbn.
    rewrite !app_nil_r, Nat.sub_0_r, <- app_assoc. auto.
Qed.

(** X8: when every pending call of a turn has a malformed payload, the
    turn leaves the history as it was before with one assistant error
    Message of fixed content appended, however many calls there were: the
    first handler pops the user Message, each later one pops the error
    Message of the call before it.  No tool is invoked and the model is
    not called again. *)
Theorem all_malformed_batch
  (tools : list (ChatCompletionToolParam Schema)) (line : string) (s : State)
  (w1 : World) (am : ChatCompletionMessage) :
  ~ matches_exit line ->
  chat_completions_create (world s) LLM_MODEL
    (chat_history s ++ [RoleContent "user" line]) (tools_or_none tools) (Some "auto")
    = (w1, inr am) ->
  pending am <> [] ->
  Forall (fun tc => parses tc = false) (pending am) ->
  exists s',
    loop_body tools line s = (Ok Next, s')
    /\ chat_history s' = chat_history s ++ [parse_error_message]
    /\ world s' = w1
    /\ pops (events s')
       = pops (events s)
           ++ RoleContent "user" line
           :: repeat parse_error_message (List.length (pending am) - 1)
    /\ rpc_calls (events s') = rpc_calls (events s)
    /\ model_calls (events s') = model_calls (events s) ++ [tools_or_none tools].
Proof.
  intros Hline Hllm Hne Hall.
  destruct (pending am) as [|tc more] eqn:Hp; [contradiction|].
  pose proof (pending_cons am tc more Hp) as Htc.
  destruct (for_each_all_malformed am (tc :: more) Hall Hne
              (asked tools line s w1) (chat_history s) (RoleContent "user" line)
              eq_refl)
    as (s' & Hrun & Hh & Hw & Hpops & Hrpc & Hmod).
  exists s'. split.
  { rewrite (loop_body_dispatch tools line s w1 am tc more Hline Hllm Htc).
    unfold bind. rewrite Hrun. reflexivity. }
  split; [exact Hh|]. split; [exact Hw|].
  rewrite Hpops, Hrpc, Hmod. unfold asked. cbn [events].
  rewrite pops_app, rpc_calls_app, model_calls_app. cbn.
  rewrite !app_nil_r. auto.
Qed.

(** ** What every turn keeps *)

(** X3: a turn never removes or changes an entry that was in the history
    before it: the history before is a prefix of the history after, for
    one iteration and for the whole loop over the lines, whatever the
    model and the tools answer. *)
Theorem turn_keeps_earlier_history
  (tools : list (ChatCompletionToolParam Schema)) (line : string)
  (lines : list string) (s : State) :
  (exists suf, chat_history (snd (loop_body tools line s)) = chat_history s ++ suf)
  /\ (exists suf, chat_history (snd (chat_loop tools lines s)) = chat_history s ++ suf).
Proof.
  assert (Hstep : forall line s,
             exists suf,
               chat_history (snd (loop_body tools line s)) = chat_history s ++ suf).
  { intros l0 s0. destruct (matches_exit_dec l0) as [Hx|Hx].
    - rewrite (loop_body_exit tools l0 s0 Hx). exists []. cbn. now rewrite app_nil_r.
    - destruct (loop_body_summary tools l0 s0 Hx) as (s' & suf & k & Hrun & Hh & _).
      rewrite Hrun. exists suf. exact Hh. }
  split; [apply Hstep|].
  apply (chat_loop_preserves
           (fun s s' => exists suf, chat_history s' = chat_history s ++ suf)).
  - intros s0. exists []. now rewrite app_nil_r.
  - intros s1 s2 s3 [a Ha] [b Hb]. exists (a ++ b). rewrite Hb, Ha.
    now rewrite app_assoc.
  - apply Hstep.
Qed.

(** X4: between two turns the history is empty or ends in an entry
    written by the assistant's side (a model answer or an error report),
    never in a user or tool-result Message: one iteration keeps this, and
    so does the whole loop. *)
Theorem history_stays_settled
  (tools : list (ChatCompletionToolParam Schema)) (line : string)
  (lines : list string) (s : State) :
  settled (chat_history s) ->
  settled (chat_history (snd (loop_body tools line s)))
  /\ settled (chat_history (snd (chat_loop tools lines s))).
Proof.
  assert (Hstep : forall line s,
             settled (chat_history s) ->
             settled (chat_history (snd (loop_body tools line s)))).
  { intros l0 s0 Hs. destruct (matches_exit_dec l0) as [Hx|Hx].
    - rewrite (loop_body_exit tools l0 s0 Hx). exact Hs.
    - destruct (loop_body_summary tools l0 s0 Hx)
        as (s' & suf & k & Hrun & Hh & Hlast & _).
      rewrite Hrun. cbn [snd]. rewrite Hh.
      destruct Hlast as [-> | (p & m & -> & Hm)].
      + rewrite app_nil_r. exact Hs.
      + right. exists (chat_history s0 ++ p), m. rewrite app_assoc. auto. }
  intros Hs. split; [apply Hstep; exact Hs|].
  revert Hs.
  apply (chat_loop_preserves
           (fun s s' => settled (chat_history s) -> settled (chat_history s'))).
  - auto.
  - auto.
  - apply Hstep.
Qed.

(** ** What a turn sends out *)

(** X5: in a turn the model answers, the tools invoked are exactly the
    pending calls whose argument payload parses, each once and in the
    order of the requests, whatever fails for the other calls or for the
    follow-up model calls; an answer without tool calls invokes none. *)
Theorem every_parsable_call_dispatched
  (tools : list (ChatCompletionToolParam Schema)) (line : string) (s : State)
  (w1 : World) (am : ChatCompletionMessage) :
  ~ matches_exit line ->
  chat_completions_create (world s) LLM_MODEL
    (chat_history s ++ [RoleContent "user" line]) (tools_or_none tools) (Some "auto")
    = (w1, inr am) ->
  rpc_calls (events (snd (loop_body tools line s)))
  = rpc_calls (events s)
      ++ map (fun tc => fn_name (tc_function tc)) (filter parses (pending am)).
Proof.
  intros Hline Hllm. destruct (pending am) as [|tc more] eqn:Hp.
  - rewrite (loop_body_plain tools line s w1 am Hline Hllm Hp).
    cbn [snd events]. unfold asked. cbn [events].
    rewrite !rpc_calls_app. cbn. now rewrite !app_nil_r.
  - destruct (loop_body_batch tools line s w1 am Hline Hllm)
      as (s' & suf & Hrun & _ & _ & _ & Hrpc & _).
    { rewrite Hp. discriminate. }
    rewrite Hrun. cbn [snd]. rewrite Hrpc, Hp. reflexivity.
Qed.

(** X6: a turn on a line other than ["exit"] calls the model first with
    the tool descriptors (or [None] when there are none) and after that
    only without tools; there are at most as many such follow-up calls
    as the answer has pending calls, and none when the first call
    raises. *)
Theorem follow_up_calls_carry_no_tools
  (tools : list (ChatCompletionToolParam Schema)) (line : string) (s : State) :
  ~ matches_exit line ->
  exists k,
    model_calls (events (snd (loop_body tools line s)))
    = model_calls (events s) ++ tools_or_none tools :: repeat None k
    /\ (forall w1 am,
          chat_completions_create (world s) LLM_MODEL
            (chat_history s ++ [RoleContent "user" line]) (tools_or_none tools)
            (Some "auto") = (w1, inr am) ->
          k <= List.length (pending am))
    /\ (forall w1 e,
          chat_completions_create (world s) LLM_MODEL
            (chat_history s ++ [RoleContent "user" line]) (tools_or_none tools)
            (Some "auto") = (w1, inl e) ->
          k = 0).
Proof.
  intros Hline.
  destruct (chat_completions_create (world s) LLM_MODEL
              (chat_history s ++ [RoleContent "user" line])
              (tools_or_none tools) (Some "auto")) as [w1 [e|am]] eqn:Hllm.
  - exists 0. rewrite (loop_body_refused tools line s w1 e Hline Hllm).
    cbn [snd events]. unfold asked. cbn [events].
    rewrite !model_calls_app. cbn. rewrite app_nil_r.
    split; [reflexivity|]. split; [intros ? ? H; discriminate H|reflexivity].
  - destruct (pending am) as [|tc more] eqn:Hp.
    + exists 0. rewrite (loop_body_plain tools line s w1 am Hline Hllm Hp).
      cbn [snd events]. unfold asked. cbn [events].
      rewrite !model_calls_app. cbn. rewrite app_nil_r.
      split; [reflexivity|]. split; [intros; lia|intros ? ? H; discriminate H].
    + destruct (loop_body_batch tools line s w1 am Hline Hllm)
        as (s' & suf & Hrun & _ & _ & _ & _ & (k & Hk & Hmod) & _).
      { rewrite Hp. discriminate. }
      exists k. rewrite Hrun. cbn [snd].
      split; [exact Hmod|].
      split; [|intros ? ? H; discriminate H].
      intros w0 am0 H0. injection H0 as _ <-. exact Hk.
Qed.

(** X10: every tool-result Message a turn adds to the history carries
    the role ["tool"] and the id and the tool name of one of the calls
    the model's answer asked for; an answer without tool calls adds
    none. *)
Theorem tool_results_match_requests
  (tools : list (ChatCompletionToolParam Schema)) (line : string) (s : State)
  (w1 : World) (am : ChatCompletionMessage) :
  ~ matches_exit line ->
  chat_completions_create (world s) LLM_MODEL
    (chat_history s ++ [RoleContent "user" line]) (tools_or_none tools) (Some "auto")
    = (w1, inr am) ->
  exists suf,
    chat_history (snd (loop_body tools line s)) = chat_history s ++ suf
    /\ Forall
         (fun m =>
            is_tool_result m = true ->
            exists tc text,
              In tc (pending am)
              /\ m = ToolResult (tc_id tc) "tool" (fn_name (tc_function tc)) text)
         suf.
Proof.
  intros Hline Hllm. destruct (pending am) as [|tc more] eqn:Hp.
  - rewrite (loop_body_plain tools line s w1 am Hline Hllm Hp).
    exists [RoleContent "user" line; Completion am]. cbn [snd chat_history].
    split; [reflexivity|].
    repeat constructor; intros H; discriminate H.
  - destruct (loop_body_batch tools line s w1 am Hline Hllm)
      as (s' & suf & Hrun & Hh & _ & HP & _).
    { rewrite Hp. discriminate. }
    rewrite Hrun. cbn [snd]. exists suf. split; [exact Hh|].
    rewrite <- Hp. apply HP.
    + intros H; discriminate H.
    + intros c H; discriminate H.
    + intros tc0 out Hin _. exists tc0, (str out). auto.
    + intros e H. destruct e; discriminate H.
Qed.

(** ** The session *)

(** The state [main] ends in when listing the tools raises. *)
Lemma main_unlisted lines s w' e :
  list_tools (world s) = (w', inl e) ->
  snd (main lines s)
  = {| chat_history := chat_history s;
       world := w';
       events := events s ++ [EvListTools] |}.
Proof.
  intros Hlist.
  cbv [main try_except get_openai_compatible_tools bind ret mcp_list_tools].
  rewrite Hlist. reflexivity.
Qed.

(** The state [main] ends in when the tools are listed. *)
Lemma main_listed lines s w' specs :
  list_tools (world s) = (w', inr specs) ->
  snd (main lines s)
  = snd (chat_loop (convert_tools specs) lines
           {| chat_history := chat_history s;
              world := w';
              events := events s ++ [EvListTools] |}).
Proof.
  intros Hlist.
  cbv [main try_except get_openai_compatible_tools bind ret mcp_list_tools].
  rewrite Hlist.
  destruct (chat_loop (convert_tools specs) lines _) as [[|] ?]; reflexivity.
Qed.

(** X7: when listing the tools raises, [main] ends at once and
    normally: no line is read, the model is never called, and the history
    is left as it was. *)
Theorem discovery_failure_ends_session (lines : list string) (s : State)
  (w' : World) (e : exn) :
  list_tools (world s) = (w', inl e) ->
  main lines s
  = (Ok tt,
     {| chat_history := chat_history s;
        world := w';
        events := events s ++ [EvListTools] |}).
Proof.
  intros Hlist.
  cbv [main try_except get_openai_compatible_tools bind ret mcp_list_tools].
  rewrite Hlist. reflexivity.
Qed.

(** X9: the loop over the lines ends normally exactly when one of the
    lines is ["exit"] in some mix of cases; without such a line the only
    exception that leaves it is the end of input (no failure of the model
    or of a tool escapes a turn); and the lines after the first ["exit"]
    are never read. *)
Theorem session_ends_at_first_exit
  (tools : list (ChatCompletionToolParam Schema)) (lines : list string) (s : State) :
  (Exists matches_exit lines -> fst (chat_loop tools lines s) = Ok tt)
  /\ (~ Exists matches_exit lines ->
      fst (chat_loop tools lines s) = Raise (Exception "EOF when reading a line"))
  /\ (forall pre line post,
        lines = pre ++ line :: post ->
        matches_exit line ->
        chat_loop tools lines s = chat_loop tools (pre ++ [line]) s).
Proof.
  split; [|split].
  - revert s. induction lines as [|line rest IH]; intros s Hex.
    + inversion Hex.
    + cbn [chat_loop]. unfold bind.
      destruct (matches_exit_dec line) as [Hx|Hx].
      * rewrite (loop_body_exit tools line s Hx). reflexivity.
      * destruct (loop_body_summary tools line s Hx) as (s' & ? & ? & Hrun & _).
        rewrite Hrun. apply IH. inversion Hex; [contradiction|assumption].
  - revert s. induction lines as [|line rest IH]; intros s Hex.
    + reflexivity.
    + cbn [chat_loop]. unfold bind.
      assert (Hx : ~ matches_exit line).
      { intros Hx. apply Hex. left. exact Hx. }
      destruct (loop_body_summary tools line s Hx) as (s' & ? & ? & Hrun & _).
      rewrite Hrun. apply IH. intros Hr. apply Hex. right. exact Hr.
  - intros pre line post -> Hline. revert s.
    induction pre as [|x pre IH]; intros s.
    + cbn [app chat_loop]. unfold bind.
      rewrite (loop_body_exit tools line s Hline). reflexivity.
    + cbn [app chat_loop]. unfold bind.
      destruct (loop_body tools x s) as [[[|]|e] s1]; try reflexivity.
      apply IH.
Qed.

(** X11: when the server lists no tool at all, no model call of the
    whole session carries a tool capability: the first call of every turn
    is made with [tools=None], like the follow-up calls. *)
Theorem no_tools_no_capability (lines : list string) (w w' : World) :
  list_tools w = (w', inr []) ->
  Forall (fun t => t = None) (model_calls (events (snd (main lines (initial w))))).
Proof.
  intros Hlist. rewrite (main_listed lines (initial w) w' [] Hlist).
  change (convert_tools []) with (@nil (ChatCompletionToolParam Schema)).
  apply (chat_loop_preserves
           (fun s s' =>
              Forall (fun t => t = None) (model_calls (events s)) ->
              Forall (fun t => t = None) (model_calls (events s')))).
  - auto.
  - auto.
  - intros line s Hs. destruct (matches_exit_dec line) as [Hx|Hx].
    + rewrite (loop_body_exit _ line s Hx). exact Hs.
    + destruct (loop_body_summary [] line s Hx)
        as (s' & suf & k & Hrun & _ & _ & Hmod & _).
      rewrite Hrun. cbn [snd]. rewrite Hmod. apply Forall_app. split; [exact Hs|].
      constructor; [reflexivity|]. apply Forall_forall. intros t Ht.
      exact (repeat_spec _ _ _ Ht).
  - cbn. constructor.
Qed.

(** X12: a session lists the tools of the server exactly once, as the
    first thing it does, however many turns follow and whatever they
    bring. *)
Theorem tools_discovered_once (lines : list string) (w : World) :
  exists tail,
    events (snd (main lines (initial w))) = EvListTools :: tail
    /\ discoveries tail = 0.
Proof.
  assert (Hloop : forall tools s,
             exists tail,
               events (snd (chat_loop tools lines s)) = events s ++ tail
               /\ discoveries tail = 0).
  { intros tools.
    apply (chat_loop_preserves
             (fun s s' =>
                exists tail, events s' = events s ++ tail /\ discoveries tail = 0)).
    - intros s. exists []. rewrite app_nil_r. auto.
    - intros s1 s2 s3 (a & Ha & Hda) (b & Hb & Hdb). exists (a ++ b).
      rewrite Hb, Ha, app_assoc, discoveries_app. split; [reflexivity|lia].
    - intros line s. destruct (matches_exit_dec line) as [Hx|Hx].
      + rewrite (loop_body_exit tools line s Hx). exists []. rewrite app_nil_r. auto.
      + destruct (loop_body_summary tools line s Hx)
          as (s' & suf & k & Hrun & _ & _ & _ & Hd).
        destruct (loop_body_next tools line s Hx) as (s'' & tail & Hrun' & Hev).
        rewrite Hrun in Hrun'. injection Hrun' as <-.
        rewrite Hrun. cbn [snd]. eexists. split; [exact Hev|].
        rewrite Hev, discoveries_app in Hd. lia. }
  destruct (list_tools w) as [w' [e|specs]] eqn:Hlist.
  - rewrite (main_unlisted lines (initial w) w' e Hlist).
    exists []. cbn. auto.
  - rewrite (main_listed lines (initial w) w' specs Hlist).
    destruct (Hloop (convert_tools specs)
                {| chat_history := chat_history (initial w);
                   world := w';
                   events := events (initial w) ++ [EvListTools] |})
      as (tail & Hev & Hd).
    exists tail. rewrite Hev. cbn. auto.
Qed.

End SessionFacts.

(** ** More runs against the scripted world *)

(** The model asks for a tool the server does not have. *)
Lemma tool_failure_recovery_witness :
  chat_history (Scripted.turn Scripted.unknown_tool)
  = [RoleContent "assistant"
       "I encountered an error while trying to use a tool: Unknown tool: divide"].
Proof.
  unfold Scripted.turn.
  rewrite (tool_failure_recovery (E := Scripted.externals)
             Scripted.tools Scripted.question
             (initial (E := Scripted.externals) Scripted.unknown_tool)
             [] [] (Scripted.asks [Scripted.call_unknown "call_1"])
             (Scripted.call_unknown "call_1") []
             [("a", 6%Z); ("b", 7%Z)] "Unknown tool: divide"
             ltac:(not_exit) eq_refl eq_refl eq_refl eq_refl).
  reflexivity.
Defined.

(** The endpoint is gone when the summary of a good call is asked for. *)
Lemma follow_up_failure_drops_tool_result_witness :
  chat_history (Scripted.turn Scripted.no_summary)
  = [RoleContent "user" Scripted.question;
     Completion (Scripted.asks [Scripted.call_ok "call_1"]);
     RoleContent "assistant"
       "I encountered an error while trying to use a tool: Connection error."].
Proof.
  destruct (follow_up_failure_drops_tool_result (E := Scripted.externals)
              Scripted.tools Scripted.question
              (initial (E := Scripted.externals) Scripted.no_summary)
              [] [] [] (Scripted.asks [Scripted.call_ok "call_1"])
              (Scripted.call_ok "call_1") []
              [("a", 6%Z); ("b", 7%Z)] 42%Z "Connection error."
              ltac:(not_exit) eq_refl eq_refl eq_refl eq_refl eq_refl)
    as (s1 & Hrun & Hhist & _).
  unfold Scripted.turn. rewrite Hrun. exact Hhist.
Defined.

(** A first turn, from the empty history. *)
Lemma history_stays_settled_witness :
  settled (chat_history (Scripted.turn Scripted.ok_then_malformed)).
Proof.
  exact (proj1 (history_stays_settled (E := Scripted.externals)
                  Scripted.tools Scripted.question []
                  (initial (E := Scripted.externals) Scripted.ok_then_malformed)
                  (or_introl eq_refl))).
Defined.

(** A malformed call between none and a good one: the good one alone is
    dispatched. *)
Lemma every_parsable_call_dispatched_witness :
  rpc_calls (events (Scripted.turn Scripted.malformed_then_ok)) = ["multiply"].
Proof.
  exact (every_parsable_call_dispatched (E := Scripted.externals)
           Scripted.tools Scripted.question
           (initial (E := Scripted.externals) Scripted.malformed_then_ok)
           [inr Scripted.summary]
           (Scripted.asks [Scripted.call_malformed "call_1"; Scripted.call_ok "call_2"])
           ltac:(not_exit) eq_refl).
Defined.

(** The model calls of a turn with two good calls. *)
Lemma follow_up_calls_carry_no_tools_witness :
  exists k,
    model_calls (events (Scripted.turn Scripted.two_ok))
    = Some Scripted.tools :: repeat None k.
Proof.
  destruct (follow_up_calls_carry_no_tools (E := Scripted.externals)
              Scripted.tools Scripted.question
              (initial (E := Scripted.externals) Scripted.two_ok)
              ltac:(not_exit))
    as (k & Hmod & _).
  exists k. exact Hmod.
Defined.

(** The tool results of a turn with a good and a malformed call. *)
Lemma tool_results_match_requests_witness :
  exists suf,
    chat_history (Scripted.turn Scripted.ok_then_malformed) = suf
    /\ Forall
         (fun m =>
            is_tool_result m = true ->
            exists tc text,
              In tc [Scripted.call_ok "call_1"; Scripted.call_malformed "call_2"]
              /\ m = ToolResult (tc_id tc) "tool" (fn_name (tc_function tc)) text)
         suf.
Proof.
  exact (tool_results_match_requests (E := Scripted.externals)
           Scripted.tools Scripted.question
           (initial (E := Scripted.externals) Scripted.ok_then_malformed)
           [inr Scripted.summary]
           (Scripted.asks [Scripted.call_ok "call_1"; Scripted.call_malformed "call_2"])
           ltac:(not_exit) eq_refl).
Defined.

(** A server that cannot be asked for its tools. *)
Lemma discovery_failure_ends_session_witness :
  main (E := Scripted.listing (inl (Exception "Connection closed")))
    [Scripted.question; "exit"]
    (initial (E := Scripted.listing (inl (Exception "Connection closed")))
       Scripted.plain)
  = (Ok tt,
     Build_State (E := Scripted.listing (inl (Exception "Connection closed")))
       [] Scripted.plain [EvListTools]).
Proof.
  exact (discovery_failure_ends_session
           (E := Scripted.listing (inl (Exception "Connection closed")))
           [Scripted.question; "exit"]
           (initial (E := Scripted.listing (inl (Exception "Connection closed")))
              Scripted.plain)
           Scripted.plain (Exception "Connection closed") eq_refl).
Defined.

(** A server without tools. *)
Lemma no_tools_no_capability_witness :
  Forall (fun t => t = None)
    (model_calls
       (events
          (snd (main (E := Scripted.listing (inr []))
                  [Scripted.question; "exit"]
                  (initial (E := Scripted.listing (inr [])) Scripted.one_ok))))).
Proof.
  exact (no_tools_no_capability (E := Scripted.listing (inr []))
           [Scripted.question; "exit"] Scripted.one_ok Scripted.one_ok eq_refl).
Defined.

(** Three malformed calls leave one error Message. *)
Lemma all_malformed_batch_witness :
  chat_history (Scripted.turn Scripted.all_malformed) = [parse_error_message]
  /\ pops (events (Scripted.turn Scripted.all_malformed))
     = [RoleContent "user" Scripted.question; parse_error_message;
        parse_error_message].
Proof.
  destruct (all_malformed_batch (E := Scripted.externals)
              Scripted.tools Scripted.question
              (initial (E := Scripted.externals) Scripted.all_malformed)
              []
              (Scripted.asks [Scripted.call_malformed "call_1";
                              Scripted.call_malformed "call_2";
                              Scripted.call_malformed "call_3"])
              ltac:(not_exit) eq_refl ltac:(discriminate)
              ltac:(repeat constructor))
    as (s' & Hrun & Hhist & _ & Hpops & _).
  unfold Scripted.turn. rewrite Hrun. cbn [snd]. rewrite Hhist, Hpops.
  split; reflexivity.
Defined.
